(** * xmtp-node-go: API server front door

    A shallow embedding of [pkg/api/server.go] (server life cycle, CORS
    wrapper, telemetry interceptor) and [pkg/tracing/tracing.go] (the span
    wrapper [Do]), with the properties of the specification stated over it.

    Go strings are byte sequences and are modelled as [string]; Go maps with
    string keys are [gmap string _]; code that can panic or that touches
    shared state runs in a small state-and-panic monad. *)

From Stdlib Require Import ZArith Lia Ascii String List.
From stdpp Require Import base option list strings gmap.

Local Open Scope string_scope.
Local Open Scope list_scope.
Local Open Scope Z_scope.

(** ** The parts of Go's [strings] package the server uses *)

Module Strings.

(** [s[i:]] for [0 <= i <= len(s)]. *)
Fixpoint slice_from (s : string) (i : nat) : string :=
  match i, s with
  | O, _ => s
  | S i', String _ s' => slice_from s' i'
  | S _, EmptyString => EmptyString
  end.

(** [s[:i]] for [0 <= i <= len(s)]. *)
Fixpoint slice_to (s : string) (i : nat) : string :=
  match i, s with
  | O, _ => EmptyString
  | S i', String c s' => String c (slice_to s' i')
  | S _, EmptyString => EmptyString
  end.

(** [strings.HasPrefix(s, prefix)]. *)
Fixpoint HasPrefix (s prefix : string) : bool :=
  match prefix, s with
  | EmptyString, _ => true
  | String p prefix', String c s' =>
      if Ascii.eqb p c then HasPrefix s' prefix' else false
  | String _ _, EmptyString => false
  end.

(** [strings.TrimPrefix(s, prefix)]: [s] without the leading [prefix],
    or [s] itself when it does not start with [prefix]. *)
Definition TrimPrefix (s prefix : string) : string :=
  if HasPrefix s prefix then slice_from s (String.length prefix) else s.

(** [strings.Index(s, substr)]: the byte offset of the first occurrence
    of [substr] in [s], or [-1]. *)
Fixpoint Index (s substr : string) : Z :=
  if HasPrefix s substr then 0
  else match s with
       | EmptyString => -1
       | String _ s' =>
           let i := Index s' substr in
           if i <? 0 then -1 else i + 1
       end.

(** Whether the byte [c] occurs in [s]. *)
Fixpoint has_byte (c : ascii) (s : string) : bool :=
  match s with
  | EmptyString => false
  | String c' s' => Ascii.eqb c' c || has_byte c s'
  end.

(** [strings.Join(elems, sep)]. *)
Fixpoint Join (elems : list string) (sep : string) : string :=
  match elems with
  | [] => ""
  | [e] => e
  | e :: rest => e +:+ sep +:+ Join rest sep
  end.

(** [strings.Split(s, sep)] for a separator of one byte, which is how the
    server calls it: the pieces between the separators, in order; the
    result is never empty. *)
Fixpoint SplitByte (s : string) (sep : ascii) : list string :=
  match s with
  | EmptyString => [EmptyString]
  | String c s' =>
      if Ascii.eqb c sep then EmptyString :: SplitByte s' sep
      else match SplitByte s' sep with
           | [] => [String c EmptyString]
           | piece :: pieces => String c piece :: pieces
           end
  end.

(** [asciiSpace]: tab, line feed, vertical tab, form feed, carriage return,
    space. *)
Definition isAsciiSpace (c : ascii) : bool :=
  let n := nat_of_ascii c in
  ((9 <=? n) && (n <=? 13))%nat || (n =? 32)%nat.

(** The white space of [unicode.IsSpace] beyond ASCII, as UTF-8: U+0085 and
    U+00A0 take two bytes; U+1680, U+2000 to U+200A, U+2028, U+2029, U+202F,
    U+205F and U+3000 take three. *)
Definition isSpace2 (c1 c2 : ascii) : bool :=
  let a := nat_of_ascii c1 in
  let b := nat_of_ascii c2 in
  ((a =? 194) && ((b =? 133) || (b =? 160)))%nat.

Definition isSpace3 (c1 c2 c3 : ascii) : bool :=
  let a := nat_of_ascii c1 in
  let b := nat_of_ascii c2 in
  let c := nat_of_ascii c3 in
  (((a =? 225) && (b =? 154) && (c =? 128))
   || ((a =? 226) && (b =? 128)
       && (((128 <=? c) && (c <=? 138)) || (c =? 168) || (c =? 169) || (c =? 175)))
   || ((a =? 226) && (b =? 129) && (c =? 159))
   || ((a =? 227) && (b =? 128) && (c =? 128)))%nat.

(** Leading white space removed. *)
Fixpoint TrimLeftSpace (s : string) : string :=
  match s with
  | EmptyString => EmptyString
  | String c1 s1 =>
      if isAsciiSpace c1 then TrimLeftSpace s1
      else match s1 with
           | EmptyString => s
           | String c2 s2 =>
               if isSpace2 c1 c2 then TrimLeftSpace s2
               else match s2 with
                    | EmptyString => s
                    | String c3 s3 =>
                        if isSpace3 c1 c2 c3 then TrimLeftSpace s3 else s
                    end
           end
  end.

(** The bytes of [s] in reverse order, in front of [acc]. *)
Fixpoint rev_onto (s acc : string) : string :=
  match s with
  | EmptyString => acc
  | String c s' => rev_onto s' (String c acc)
  end.

(** Leading white space removed from a string whose bytes are in reverse
    order. *)
Fixpoint TrimLeftSpaceRev (s : string) : string :=
  match s with
  | EmptyString => EmptyString
  | String c1 s1 =>
      if isAsciiSpace c1 then TrimLeftSpaceRev s1
      else match s1 with
           | EmptyString => s
           | String c2 s2 =>
               if isSpace2 c2 c1 then TrimLeftSpaceRev s2
               else match s2 with
                    | EmptyString => s
                    | String c3 s3 =>
                        if isSpace3 c3 c2 c1 then TrimLeftSpaceRev s3 else s
                    end
           end
  end.

(** Trailing white space removed. *)
Definition TrimRightSpace (s : string) : string :=
  rev_onto (TrimLeftSpaceRev (rev_onto s EmptyString)) EmptyString.

(** [strings.TrimSpace(s)]: [s] without leading and trailing white space,
    as Unicode defines it. *)
Definition TrimSpace (s : string) : string :=
  TrimRightSpace (TrimLeftSpace s).

End Strings.

(** ** [splitMethodName] (pkg/api) *)

Definition splitMethodName (fullMethodName : string) : string * string :=
  let fullMethodName := Strings.TrimPrefix fullMethodName "/" in
  let i := Strings.Index fullMethodName "/" in
  if 0 <=? i then
    (Strings.slice_to fullMethodName (Z.to_nat i),
     Strings.slice_from fullMethodName (Z.to_nat (i + 1)))
  else ("unknown", "unknown").

(** ** Go values: errors, panics, and functions that may panic *)

Module Go.

(** gRPC status codes ([google.golang.org/grpc/codes]). *)
Inductive Code : Type :=
| OK | Canceled | Unknown | InvalidArgument | DeadlineExceeded | NotFound
| AlreadyExists | PermissionDenied | ResourceExhausted | FailedPrecondition
| Aborted | OutOfRange | Unimplemented | Internal | Unavailable | DataLoss
| Unauthenticated.

Definition Code_String (c : Code) : string :=
  match c with
  | OK => "OK" | Canceled => "Canceled" | Unknown => "Unknown"
  | InvalidArgument => "InvalidArgument"
  | DeadlineExceeded => "DeadlineExceeded" | NotFound => "NotFound"
  | AlreadyExists => "AlreadyExists"
  | PermissionDenied => "PermissionDenied"
  | ResourceExhausted => "ResourceExhausted"
  | FailedPrecondition => "FailedPrecondition" | Aborted => "Aborted"
  | OutOfRange => "OutOfRange" | Unimplemented => "Unimplemented"
  | Internal => "Internal" | Unavailable => "Unavailable"
  | DataLoss => "DataLoss" | Unauthenticated => "Unauthenticated"
  end.

Record Status : Type := { StatusCode : Code; StatusMessage : string }.

(** A non-nil [error] value.  A leaf error carries its message and, when
    it is of the status-carrying kind, what its [GRPCStatus] method
    returns; [Wrap] is [errors.Wrap(cause, msg)].  A Go [error] that may be
    nil is an [option error]. *)
Inductive error : Type :=
| NewError (msg : string) (grpcStatus : option Status)
| Wrap (cause : error) (msg : string).

(** [err.Error()]. *)
Fixpoint Error (e : error) : string :=
  match e with
  | NewError msg _ => msg
  | Wrap cause msg => msg +:+ ": " +:+ Error cause
  end.

(** The first result of [status.FromError(err)] for a non-nil [err]: the
    status the error carries, else an [Unknown] status with the error's
    text.  It is never nil for such an [err]. *)
Definition status_FromError (e : error) : option Status :=
  match e with
  | NewError _ (Some st) => Some st
  | _ => Some {| StatusCode := Unknown; StatusMessage := Error e |}
  end.

(** The value of a panic in flight, an [interface{}]: an [error] or
    something else.  [recover()] returns nil exactly when no panic is in
    flight (a [panic(nil)] reaches it as a [*runtime.PanicNilError], which
    is an [error]), so what it returns is an [option any]. *)
Inductive any : Type :=
| AnyError (e : error)
| AnyString (s : string)
| AnyInt (n : Z).

Inductive outcome (A : Type) : Type :=
| Returned (a : A)
| Panicked (v : any).
Arguments Returned {A} a.
Arguments Panicked {A} v.

(** A function body over a mutable state [St]: it returns or panics, and
    either way leaves a state behind. *)
Definition M (St A : Type) : Type := St -> outcome A * St.

Section Monad.
Context {St : Type}.

Definition ret {A} (a : A) : M St A := fun s => (Returned a, s).

Definition bind {A B} (m : M St A) (k : A -> M St B) : M St B :=
  fun s =>
    match m s with
    | (Returned a, s') => k a s'
    | (Panicked v, s') => (Panicked v, s')
    end.

Definition panic {A} (v : any) : M St A := fun s => (Panicked v, s).

Definition modify (f : St -> St) : M St unit :=
  fun s => (Returned tt, f s).

Definition gets {A} (f : St -> A) : M St A :=
  fun s => (Returned (f s), s).

(** [defer func() { r := recover(); deferred(r) }(); body]
    in a function without results: [body] runs, then the deferred
    function runs with what [recover()] gives it.  A panic of [body] is
    stopped by the [recover]; the function then returns normally unless
    the deferred function panics itself. *)
Definition defer_recover (body : M St unit)
    (deferred : option any -> M St unit) : M St unit :=
  fun s =>
    match body s with
    | (Returned _, s') => deferred None s'
    | (Panicked v, s') => deferred (Some v) s'
    end.
End Monad.

#[global] Instance M_ret {St} : MRet (M St) := fun A => @ret St A.
#[global] Instance M_bind {St} : MBind (M St) :=
  fun A B k m => @bind St A B m k.

End Go.

(** ** Structured log fields and the call context *)

(** A [zapcore.Field]: a key and a string or error value. *)
Inductive FieldValue : Type :=
| StringValue (s : string)
| ErrorValue (e : Go.error).

Record Field : Type := { Key : string; Value : FieldValue }.

Definition zap_String (key val : string) : Field :=
  {| Key := key; Value := StringValue val |}.

Definition zap_Error (err : Go.error) : Field :=
  {| Key := "error"; Value := ErrorValue err |}.

Record Span : Type :=
  { SpanID : nat; SpanName : string; SpanParent : option nat }.

(** What the server reads from a [context.Context]: the active span, the
    inbound call metadata ([None] when the context carries none), and the
    fields that [messagev1.NewRequesterInfo(ctx).ZapFields()] renders
    (package [message/v1] decides them, not this one). *)
Record Context : Type :=
  { ctxSpan : option Span;
    ctxMD : option (gmap string (list string));
    ctxRequester : list Field }.

Definition context_Background : Context :=
  {| ctxSpan := None; ctxMD := None; ctxRequester := [] |}.

(** ** pkg/tracing *)

Module Tracing.
Import Go.

(** The tracer: the spans started and the [Finish] calls made, each with
    the error it was tagged with, if any. *)
Record Tracer : Type :=
  { nextSpanID : nat;
    started : list Span;
    finished : list (Span * option error) }.

Definition Tracer_empty : Tracer :=
  {| nextSpanID := 0; started := []; finished := [] |}.

(** [span.Finish(opts...)] option. *)
Inductive FinishOption : Type := WithError (e : error).

Definition finish_tag (opts : list FinishOption) : option error :=
  match opts with
  | [] => None
  | WithError e :: _ => Some e
  end.

Section WithApp.
(** The rest of the program state, which an action may change. *)
Context {App : Type}.

Abbreviation St := (Tracer * App)%type.

(** [tracer.StartSpanFromContext(ctx, spanName)]: a new span, child of
    the span of [ctx], and a context that carries it. *)
Definition StartSpanFromContext (ctx : Context) (spanName : string)
  : M St (Span * Context) :=
  fun '(tr, app) =>
    let span := {| SpanID := nextSpanID tr;
                   SpanName := spanName;
                   SpanParent := SpanID <$> ctxSpan ctx |} in
    let ctx' := {| ctxSpan := Some span;
                   ctxMD := ctxMD ctx;
                   ctxRequester := ctxRequester ctx |} in
    (Returned (span, ctx'),
     ({| nextSpanID := S (nextSpanID tr);
         started := started tr ++ [span];
         finished := finished tr |}, app)).

Definition Finish (span : Span) (opts : list FinishOption) : M St unit :=
  modify (fun '(tr, app) =>
    ({| nextSpanID := nextSpanID tr;
        started := started tr;
        finished := finished tr ++ [(span, finish_tag opts)] |}, app)).

(** [Do]: run [action] under a top-level span. *)
Definition Do (ctx : Context) (spanName : string)
    (action : Context -> M St unit) : M St unit :=
  '(span, ctx) ← StartSpanFromContext ctx spanName;
  defer_recover
    (action ctx)
    (fun r =>
       match r with
       | Some (AnyError r) => Finish span [WithError r]
       | _ => Finish span []
       end;;
       match r with
       | Some r => panic r
       | None => ret tt
       end).
End WithApp.

(** How often [Finish] was called on [span]. *)
Definition finish_count (span : Span) (tr : Tracer) : nat :=
  length (filter (fun p => SpanID (fst p) = SpanID span) (finished tr)).

End Tracing.

(** ** The parts of [net/http] the CORS wrapper uses *)

Module HTTP.

Definition is_lower (c : ascii) : bool :=
  let n := nat_of_ascii c in ((97 <=? n) && (n <=? 122))%nat.

Definition is_upper (c : ascii) : bool :=
  let n := nat_of_ascii c in ((65 <=? n) && (n <=? 90))%nat.

Definition is_digit (c : ascii) : bool :=
  let n := nat_of_ascii c in ((48 <=? n) && (n <=? 57))%nat.

Definition to_upper (c : ascii) : ascii :=
  if is_lower c then ascii_of_nat (nat_of_ascii c - 32) else c.

Definition to_lower (c : ascii) : ascii :=
  if is_upper c then ascii_of_nat (nat_of_ascii c + 32) else c.

(** The bytes of an HTTP token (RFC 7230): letters, digits and
    [!#$%&'*+-.^_`|~]. *)
Definition validHeaderFieldByte (c : ascii) : bool :=
  is_lower c || is_upper c || is_digit c
  || bool_decide (nat_of_ascii c ∈
       [33; 35; 36; 37; 38; 39; 42; 43; 45; 46; 94; 95; 96; 124; 126]%nat).

Fixpoint all_valid (s : string) : bool :=
  match s with
  | EmptyString => true
  | String c s' => validHeaderFieldByte c && all_valid s'
  end.

(** The rewriting loop of [canonicalMIMEHeaderKey]: upper case at the
    start and after a hyphen, lower case elsewhere. *)
Fixpoint canonicalize (upper : bool) (s : string) : string :=
  match s with
  | EmptyString => EmptyString
  | String c s' =>
      let c' := if upper then to_upper c else to_lower c in
      String c' (canonicalize (Ascii.eqb c' "-") s')
  end.

(** [textproto.CanonicalMIMEHeaderKey]: a key with a byte that is not a
    token byte is returned as it is. *)
Definition CanonicalMIMEHeaderKey (s : string) : string :=
  if all_valid s then canonicalize true s else s.

(** [http.Header]. *)
Abbreviation Header := (gmap string (list string)).

(** [h.Get(key)]: the first value of the key, or the empty string. *)
Definition Header_Get (h : Header) (key : string) : string :=
  match h !! CanonicalMIMEHeaderKey key with
  | Some (v :: _) => v
  | _ => ""
  end.

(** [h.Set(key, value)]: the key now has the single value [value]. *)
Definition Header_Set (h : Header) (key value : string) : Header :=
  <[CanonicalMIMEHeaderKey key := [value]]> h.

Record Request : Type :=
  { Method : string; URLPath : string; ReqHeader : Header }.

(** The response as a handler builds it up: the header map behind
    [w.Header()], the status written, the body written. *)
Record ResponseWriter : Type :=
  { RespHeader : Header; RespStatus : option Z; RespBody : string }.

Definition set_header (w : ResponseWriter) (key value : string)
  : ResponseWriter :=
  {| RespHeader := Header_Set (RespHeader w) key value;
     RespStatus := RespStatus w;
     RespBody := RespBody w |}.

(** [http.Handler]: [ServeHTTP(w, r)] updates the response in place. *)
Definition Handler : Type := ResponseWriter -> Request -> ResponseWriter.

End HTTP.

(** ** pkg/api: the CORS wrapper *)

Definition preflightHandler : HTTP.Handler := fun w r =>
  let headers :=
    [ "Content-Type"; "Accept"; "Authorization"; "X-Client-Version";
      "X-App-Version"; "Baggage"; "DNT"; "Sec-CH-UA"; "Sec-CH-UA-Mobile";
      "Sec-CH-UA-Platform"; "Sentry-Trace"; "User-Agent" ] in
  let w := HTTP.set_header w "Access-Control-Allow-Headers"
             (Strings.Join headers ",") in
  let methods := [ "GET"; "HEAD"; "POST"; "PUT"; "PATCH"; "DELETE" ] in
  HTTP.set_header w "Access-Control-Allow-Methods" (Strings.Join methods ",").

Definition allowCORS (h : HTTP.Handler) : HTTP.Handler := fun w r =>
  let w := HTTP.set_header w "Access-Control-Allow-Origin" "*" in
  if String.eqb (HTTP.Method r) "OPTIONS"
     && negb (String.eqb
                (HTTP.Header_Get (HTTP.ReqHeader r)
                                 "Access-Control-Request-Method") "")
  then preflightHandler w r
  else h w r.

(** ** pkg/api: the telemetry interceptor *)

(** A [*zap.Logger], known by its name. *)
Record Logger : Type := { LoggerName : string }.

Inductive Level : Type := DebugLevel | InfoLevel | ErrorLevel.

(** What a call leaves behind in the log and metrics sinks, in order.
    [OtherEffect] stands for whatever a business handler does. *)
Inductive Event : Type :=
| LogEvent (log : Logger) (lvl : Level) (msg : string) (fields : list Field)
| EmitAPIRequest (ctx : Context) (fields : list Field)
| OtherEffect (what : string).

Abbreviation Trace := (list Event).

Definition emit (e : Event) : Go.M Trace unit :=
  Go.modify (fun t => t ++ [e]).

Module Metadata.

(** [strings.ToLower] on ASCII keys. *)
Fixpoint ToLower (s : string) : string :=
  match s with
  | EmptyString => EmptyString
  | String c s' => String (HTTP.to_lower c) (ToLower s')
  end.

(** [metadata.FromIncomingContext(ctx)]; the nil map of the failure case
    reads as the empty map. *)
Definition FromIncomingContext (ctx : Context)
  : gmap string (list string) * bool :=
  match ctxMD ctx with
  | Some md => (md, true)
  | None => (∅, false)
  end.

(** [md.Get(k)]: the values of the lower-cased key, nil when absent. *)
Definition Get (md : gmap string (list string)) (k : string) : list string :=
  default [] (md !! ToLower k).

End Metadata.

(** [xs[0]] on a slice: a run-time panic when the slice is empty. *)
Definition index0 {St} (xs : list string) : Go.M St string :=
  match xs with
  | x :: _ => mret x
  | [] => Go.panic
            (Go.AnyError (Go.NewError "index out of range [0] with length 0" None))
  end.

Record TelemetryInterceptor : Type := { log : Logger }.

Definition NewTelemetryInterceptor (log : Logger) : TelemetryInterceptor :=
  {| log := log |}.

Definition record (ti : TelemetryInterceptor) (ctx : Context)
    (fullMethod : string) (err : option Go.error) : Go.M Trace unit :=
  let '(serviceName, methodName) := splitMethodName fullMethod in
  let ri := ctxRequester ctx in
  let fields :=
    [ zap_String "service" serviceName; zap_String "method" methodName ]
    ++ ri in
  let '(md, _) := Metadata.FromIncomingContext ctx in
  fields ←
    match Metadata.Get md "x-forwarded-for" with
    | ips0 :: _ =>
        let ips := Strings.SplitByte ips0 "," in
        ip ← index0 ips;
        mret (fields ++ [zap_String "client_ip" (Strings.TrimSpace ip)])
    | [] => mret fields
    end;
  let logFn := DebugLevel in
  let '(logFn, fields) :=
    match err with
    | Some err =>
        let logFn := InfoLevel in
        let fields := fields ++ [zap_Error err] in
        match Go.status_FromError err with
        | Some grpcErr =>
            let errCode := Go.Code_String (Go.StatusCode grpcErr) in
            (logFn,
             fields ++ [ zap_String "error_code" errCode;
                         zap_String "error_message" (Go.StatusMessage grpcErr) ])
        | None => (logFn, fields)
        end
    | None => (logFn, fields)
    end in
  emit (LogEvent (log ti) logFn "api request" fields);;
  emit (EmitAPIRequest ctx fields).

Record ServerInfo : Type := { FullMethod : string }.

Record ServerStream : Type := { StreamContext : Context }.

(** [grpc.UnaryHandler] and [grpc.StreamHandler]; requests, responses and
    the service implementation are [interface{}] values. *)
Definition UnaryHandler : Type :=
  Context -> Go.any -> Go.M Trace (Go.any * option Go.error).

Definition StreamHandler : Type :=
  Go.any -> ServerStream -> Go.M Trace (option Go.error).

Definition TelemetryInterceptor_Unary (ti : TelemetryInterceptor)
    (ctx : Context) (req : Go.any) (info : ServerInfo)
    (handler : UnaryHandler) : Go.M Trace (Go.any * option Go.error) :=
  '(res, err) ← handler ctx req;
  record ti ctx (FullMethod info) err;;
  mret (res, err).

Definition TelemetryInterceptor_Stream (ti : TelemetryInterceptor)
    (srv : Go.any) (stream : ServerStream) (info : ServerInfo)
    (handler : StreamHandler) : Go.M Trace (option Go.error) :=
  res ← handler srv stream;
  record ti (StreamContext stream) (FullMethod info) None;;
  mret res.

(** The number of [record] calls a trace shows: each call ends with its one
    [metrics.EmitAPIRequest]. *)
Definition is_EmitAPIRequest (e : Event) : bool :=
  match e with EmitAPIRequest _ _ => true | _ => false end.

Definition records_in (t : Trace) : nat :=
  length (List.filter is_EmitAPIRequest t).

(** ** pkg/api: the server *)

(** The two listeners of a server. *)
Inductive Transport : Type := GRPC | HTTPGateway.

#[global] Instance Transport_eq_dec : EqDecision Transport.
Proof. solve_decision. Defined.

Inductive ListenerState : Type := Unbound | Listening | Closed.

#[global] Instance ListenerState_eq_dec : EqDecision ListenerState.
Proof. solve_decision. Defined.

Inductive Service : Type := MessageV1 | MessageV3.

Inductive Interceptor : Type :=
| PrometheusInterceptor
| TelemetryEntry (ti : TelemetryInterceptor)
| AuthorizerEntry.

(** The options [grpc.NewServer] is given and the services registered on
    the server afterwards. *)
Record GrpcServer : Type :=
  { UnaryInterceptors : list Interceptor;
    StreamInterceptors : list Interceptor;
    MaxRecvMsgSize : Z;
    HealthRegistered : bool;
    Registered : list Service }.

(** [time.Duration], in nanoseconds. *)
Definition time_Minute : Z := 60 * 1000000000.
Definition time_Hour : Z := 60 * time_Minute.

(** What a goroutine of the server runs. *)
Inductive Body : Type :=
| Serve (l : Transport)
| Janitor (sweepInterval maxInactivity : Z).

(** How a goroutine was started: by [tracing.GoPanicWrap] under a span name
    and a [WaitGroup], or by a bare [go] statement. *)
Inductive Spawn : Type :=
| ByGoPanicWrap (name : string)
| ByGoStatement.

Record Task : Type := { taskBody : Body; taskSpawn : Spawn; taskRunning : bool }.

Definition joined (t : Task) : bool :=
  match taskSpawn t with ByGoPanicWrap _ => true | ByGoStatement => false end.

(** What the server does to the world outside it, in order. *)
Inductive Effect : Type :=
| Logged (lvl : Level) (msg : string) (err : option Go.error)
| Bound (l : Transport)
| ListenerClosed (l : Transport)
| ServiceCreated (svc : Service)
| ServiceClosed (svc : Service)
| Dialed
| Waited.

(** The world a server lives in: the state of the two listeners, the
    goroutines started, the counter of the server's [WaitGroup] (shared with
    the goroutines, so kept here and not in the [Server] value), the gRPC
    server built, and the effects so far. *)
Record World : Type :=
  { listeners : Transport -> ListenerState;
    tasks : list Task;
    wg : nat;
    grpcServer : option GrpcServer;
    effects : list Effect }.

Definition World_empty : World :=
  {| listeners := fun _ => Unbound; tasks := []; wg := 0%nat;
     grpcServer := None; effects := [] |}.

Definition set_listener (l : Transport) (st : ListenerState) (w : World) : World :=
  {| listeners := fun l' => if decide (l' = l) then st else listeners w l';
     tasks := tasks w; wg := wg w; grpcServer := grpcServer w;
     effects := effects w |}.

Definition set_tasks (ts : list Task) (n : nat) (w : World) : World :=
  {| listeners := listeners w; tasks := ts; wg := n;
     grpcServer := grpcServer w; effects := effects w |}.

Definition set_grpcServer (g : GrpcServer) (w : World) : World :=
  {| listeners := listeners w; tasks := tasks w; wg := wg w;
     grpcServer := Some g; effects := effects w |}.

(** [Register...Server(grpcServer, svc)] on the gRPC server built. *)
Definition register (svc : Service) (w : World) : World :=
  match grpcServer w with
  | Some g =>
      set_grpcServer
        {| UnaryInterceptors := UnaryInterceptors g;
           StreamInterceptors := StreamInterceptors g;
           MaxRecvMsgSize := MaxRecvMsgSize g;
           HealthRegistered := HealthRegistered g;
           Registered := Registered g ++ [svc] |} w
  | None => w
  end.

Definition effect (e : Effect) (w : World) : World :=
  {| listeners := listeners w; tasks := tasks w; wg := wg w;
     grpcServer := grpcServer w; effects := effects w ++ [e] |}.

(** The fields of [Config] that [New] and [Close] read. *)
Record AuthnOptions : Type := { Enable : bool }.

Record Options : Type := { MaxMsgSize : Z }.

Record Config : Type :=
  { Authn : AuthnOptions;
    MlsStore : option unit;
    EnableMls : bool;
    ConfigOptions : Options;
    Log : Logger }.

(** The calls into other packages that can fail, with their result for the
    run at hand ([None] is a nil error). *)
Record Env : Type :=
  { validate : Config -> option Go.error;
    net_Listen : Transport -> option Go.error;
    messagev1_NewService : option Go.error;
    messagev3_NewService : option Go.error;
    grpc_DialContext : option Go.error;
    RegisterMessageApiHandler : option Go.error;
    RegisterMlsApiHandler : option Go.error;
    Listener_Close : Transport -> option Go.error }.

Record Server : Type :=
  { config : Config;
    grpcListener : option Transport;
    httpListener : option Transport;
    messagev1 : option Service;
    messagev3 : option Service;
    ctx : Context;
    authorizer : bool }.

Definition set_grpcListener (l : option Transport) (s : Server) : Server :=
  {| config := config s; grpcListener := l; httpListener := httpListener s;
     messagev1 := messagev1 s; messagev3 := messagev3 s; ctx := ctx s;
     authorizer := authorizer s |}.

Definition set_httpListener (l : option Transport) (s : Server) : Server :=
  {| config := config s; grpcListener := grpcListener s; httpListener := l;
     messagev1 := messagev1 s; messagev3 := messagev3 s; ctx := ctx s;
     authorizer := authorizer s |}.

Definition set_messagev1 (svc : option Service) (s : Server) : Server :=
  {| config := config s; grpcListener := grpcListener s;
     httpListener := httpListener s; messagev1 := svc;
     messagev3 := messagev3 s; ctx := ctx s; authorizer := authorizer s |}.

Definition set_messagev3 (svc : option Service) (s : Server) : Server :=
  {| config := config s; grpcListener := grpcListener s;
     httpListener := httpListener s; messagev1 := messagev1 s;
     messagev3 := svc; ctx := ctx s; authorizer := authorizer s |}.

Definition set_authorizer (a : bool) (s : Server) : Server :=
  {| config := config s; grpcListener := grpcListener s;
     httpListener := httpListener s; messagev1 := messagev1 s;
     messagev3 := messagev3 s; ctx := ctx s; authorizer := a |}.

(** The state of a method of [*Server]: the struct and the world. *)
Abbreviation SW := (Server * World)%type.

Definition on_server (f : Server -> Server) : Go.M SW unit :=
  Go.modify (fun '(s, w) => (f s, w)).

Definition on_world (f : World -> World) : Go.M SW unit :=
  Go.modify (fun '(s, w) => (s, f w)).

(** [go body]: a goroutine nobody waits for. *)
Definition go (body : Body) : Go.M SW unit :=
  on_world (fun w =>
    set_tasks (tasks w ++ [{| taskBody := body; taskSpawn := ByGoStatement;
                              taskRunning := true |}]) (wg w) w).

(** Modelled from the spec: [tracing.GoPanicWrap(ctx, wg, name, body)] is
    called by the server but is not in pkg/tracing/tracing.go as given.  It
    registers the task with the joiner ([wg.Add(1)]) and starts it on a
    goroutine of its own, its body wrapped in the span wrapper under [name];
    the goroutine signals the joiner when it ends. *)
Definition GoPanicWrap (name : string) (body : Body) : Go.M SW unit :=
  on_world (fun w =>
    set_tasks (tasks w ++ [{| taskBody := body; taskSpawn := ByGoPanicWrap name;
                              taskRunning := true |}]) (S (wg w)) w).

Definition mls_enabled (c : Config) : bool :=
  bool_decide (MlsStore c ≠ None) && EnableMls c.

(** [s.startGRPC()].  The Prometheus set-up, the transport credentials and
    the health service have no part in what follows and are left out. *)
Definition startGRPC (env : Env) : Go.M SW (option Go.error) :=
  match net_Listen env GRPC with
  | Some err =>
      on_server (set_grpcListener None);;
      mret (Some (Go.Wrap err "creating grpc listener"))
  | None =>
      on_world (fun w => effect (Bound GRPC) (set_listener GRPC Listening w));;
      on_server (set_grpcListener (Some GRPC));;
      s ← Go.gets fst;
      let unary := [PrometheusInterceptor] in
      let stream := [PrometheusInterceptor] in
      let telemetryInterceptor := NewTelemetryInterceptor (Log (config s)) in
      let unary := unary ++ [TelemetryEntry telemetryInterceptor] in
      let stream := stream ++ [TelemetryEntry telemetryInterceptor] in
      '(unary, stream) ←
        (if Enable (Authn (config s)) then
           go (Janitor (10 * time_Minute) (1 * time_Hour));;
           on_server (set_authorizer true);;
           mret (unary ++ [AuthorizerEntry], stream ++ [AuthorizerEntry])
         else mret (unary, stream));
      let grpcServer :=
        {| UnaryInterceptors := unary;
           StreamInterceptors := stream;
           MaxRecvMsgSize := MaxMsgSize (ConfigOptions (config s));
           HealthRegistered := true;
           Registered := [] |} in
      on_world (set_grpcServer grpcServer);;
      match messagev1_NewService env with
      | Some err =>
          on_server (set_messagev1 None);;
          mret (Some (Go.Wrap err "creating message service"))
      | None =>
          on_world (effect (ServiceCreated MessageV1));;
          on_server (set_messagev1 (Some MessageV1));;
          on_world (register MessageV1);;
          err ←
            (if mls_enabled (config s) then
               match messagev3_NewService env with
               | Some err =>
                   on_server (set_messagev3 None);;
                   mret (Some (Go.Wrap err "creating mls service"))
               | None =>
                   on_world (effect (ServiceCreated MessageV3));;
                   on_server (set_messagev3 (Some MessageV3));;
                   on_world (register MessageV3);;
                   mret None
               end
             else mret None);
          match err with
          | Some err => mret (Some err)
          | None =>
              GoPanicWrap "grpc" (Serve GRPC);;
              mret None
          end
      end
  end.

(** [s.dialGRPC(ctx)]; it reads the address of [s.grpcListener]. *)
Definition dialGRPC (env : Env) : Go.M SW (option Go.error) :=
  s ← Go.gets fst;
  match grpcListener s with
  | None =>
      Go.panic (Go.AnyError
        (Go.NewError "invalid memory address or nil pointer dereference" None))
  | Some _ =>
      on_world (effect Dialed);;
      mret (grpc_DialContext env)
  end.

(** [s.startHTTP()].  Building the mux and the handler
    [allowCORS(gzipWrapper(mux))] cannot fail and touches nothing outside the
    function; only the steps that can fail or that change the server or the
    world are shown. *)
Definition startHTTP (env : Env) : Go.M SW (option Go.error) :=
  err ← dialGRPC env;
  match err with
  | Some err => mret (Some (Go.Wrap err "dialing grpc server"))
  | None =>
  match RegisterMessageApiHandler env with
  | Some err => mret (Some (Go.Wrap err "registering message handler"))
  | None =>
  s ← Go.gets fst;
  match (if mls_enabled (config s) then RegisterMlsApiHandler env else None) with
  | Some err => mret (Some (Go.Wrap err "registering mls handler"))
  | None =>
  match net_Listen env HTTPGateway with
  | Some err =>
      on_server (set_httpListener None);;
      mret (Some (Go.Wrap err "creating grpc-gateway listener"))
  | None =>
      on_world (fun w =>
        effect (Bound HTTPGateway) (set_listener HTTPGateway Listening w));;
      on_server (set_httpListener (Some HTTPGateway));;
      GoPanicWrap "http" (Serve HTTPGateway);;
      mret None
  end end end end.

(** [New(config)]: the server and a nil error, or nil and the error.  The
    [Server] value is new; the world is the caller's. *)
Definition New (env : Env) (config : Config)
  : Go.M World (option Server * option Go.error) :=
  fun w =>
    match validate env config with
    | Some err => (Go.Returned (None, Some err), w)
    | None =>
        let s := {| config := config; grpcListener := None;
                    httpListener := None; messagev1 := None;
                    messagev3 := None; ctx := context_Background;
                    authorizer := false |} in
        match startGRPC env (s, w) with
        | (Go.Panicked v, (_, w)) => (Go.Panicked v, w)
        | (Go.Returned (Some err), (_, w)) => (Go.Returned (None, Some err), w)
        | (Go.Returned None, (s, w)) =>
            match startHTTP env (s, w) with
            | (Go.Panicked v, (_, w)) => (Go.Panicked v, w)
            | (Go.Returned (Some err), (_, w)) =>
                (Go.Returned (None, Some err), w)
            | (Go.Returned None, (s, w)) => (Go.Returned (Some s, None), w)
            end
        end
    end.

(** *** Goroutines and the wait group *)

(** A serve loop returns once its listener is no longer listening.  Nothing
    in this package ends the janitor: the limiter is given [s.ctx], which is
    [context.Background()]. *)
Definition may_exit (w : World) (t : Task) : bool :=
  taskRunning t &&
  match taskBody t with
  | Serve l => negb (bool_decide (listeners w l = Listening))
  | Janitor _ _ => false
  end.

Definition exit_task (w : World) (t : Task) : Task :=
  if may_exit w t
  then {| taskBody := taskBody t; taskSpawn := taskSpawn t; taskRunning := false |}
  else t.

(** Every goroutine that can return does, and signals the wait group if it
    was registered with it. *)
Definition run_goroutines (w : World) : World :=
  set_tasks (map (exit_task w) (tasks w))
    (wg w - length (List.filter (fun t => may_exit w t && joined t) (tasks w)))
    w.

(** [wg.Wait()]: returns when the counter is zero; [None] when it never is. *)
Definition WaitGroup_Wait (w : World) : option World :=
  let w := run_goroutines w in
  if Nat.eqb (wg w) 0 then Some (effect Waited w) else None.

(** [l.Close()]: the listener stops listening whatever the call returns. *)
Definition close_listener (env : Env) (l : Transport) (what : string)
    (w : World) : World :=
  let w := effect (ListenerClosed l) (set_listener l Closed w) in
  match Listener_Close env l with
  | Some err => effect (Logged ErrorLevel what (Some err)) w
  | None => w
  end.

(** [s.Close()]; [None] when it never returns. *)
Definition Close (env : Env) (s : Server) (w : World) : option World :=
  let w := effect (Logged InfoLevel "closing" None) w in
  let w := match messagev1 s with
           | Some svc => effect (ServiceClosed svc) w
           | None => w
           end in
  let w := match httpListener s with
           | Some l => close_listener env l "closing http listener" w
           | None => w
           end in
  let w := match grpcListener s with
           | Some l => close_listener env l "closing grpc listener" w
           | None => w
           end in
  w ← WaitGroup_Wait w;
  Some (effect (Logged InfoLevel "closed" None) w).

(** * Vocabulary of the properties *)

(** The two allow-lists of a preflight answer, joined. *)
Definition allowed_headers : string :=
  "Content-Type,Accept,Authorization,X-Client-Version,X-App-Version,Baggage,DNT,Sec-CH-UA,Sec-CH-UA-Mobile,Sec-CH-UA-Platform,Sentry-Trace,User-Agent".

Definition allowed_methods : string := "GET,HEAD,POST,PUT,PATCH,DELETE".

(** A preflight request: method OPTIONS with a non-empty
    [Access-Control-Request-Method] header. *)
Definition is_preflight (r : HTTP.Request) : Prop :=
  HTTP.Method r = "OPTIONS"
  /\ HTTP.Header_Get (HTTP.ReqHeader r) "Access-Control-Request-Method" <> "".

(** The values of the forwarding header in the inbound metadata of a call;
    [None] when the call has no metadata or the metadata has no such key. *)
Definition forwarded_for (ctx : Context) : option (list string) :=
  md ← ctxMD ctx; md !! "x-forwarded-for".

(** The fields that describe the error of a call. *)
Definition error_fields (err : option Go.error) : list Field :=
  match err with
  | Some err =>
      zap_Error err ::
      match Go.status_FromError err with
      | Some grpcErr =>
          [ zap_String "error_code" (Go.Code_String (Go.StatusCode grpcErr));
            zap_String "error_message" (Go.StatusMessage grpcErr) ]
      | None => []
      end
  | None => []
  end.

(** The two events of one telemetry record: the log line, at level [lvl],
    and the metrics emission, both with the service and method of [fullMethod],
    the requester fields of [ctx], the client address fields [ip] and the
    fields of [err]. *)
Definition record_events (ti : TelemetryInterceptor) (ctx : Context)
    (fullMethod : string) (lvl : Level) (ip : list Field)
    (err : option Go.error) : Trace :=
  let fields :=
    [ zap_String "service" (fst (splitMethodName fullMethod));
      zap_String "method" (snd (splitMethodName fullMethod)) ]
    ++ ctxRequester ctx ++ ip ++ error_fields err in
  [ LogEvent (log ti) lvl "api request" fields; EmitAPIRequest ctx fields ].

(** The client address field [record] derives from the forwarding header. *)
Definition client_ip_fields (ctx : Context) : list Field :=
  match forwarded_for ctx with
  | Some (ips0 :: _) =>
      match Strings.SplitByte ips0 "," with
      | ip :: _ => [zap_String "client_ip" (Strings.TrimSpace ip)]
      | [] => []
      end
  | _ => []
  end.

Definition record_level (err : option Go.error) : Level :=
  match err with Some _ => InfoLevel | None => DebugLevel end.

(** The goroutines [New] starts. *)
Definition janitor_task : Task :=
  {| taskBody := Janitor (10 * time_Minute) (1 * time_Hour);
     taskSpawn := ByGoStatement; taskRunning := true |}.

Definition serve_task (l : Transport) (name : string) (running : bool) : Task :=
  {| taskBody := Serve l; taskSpawn := ByGoPanicWrap name;
     taskRunning := running |}.

(** Every goroutine of the world was started by [tracing.GoPanicWrap], and
    so runs under the span wrapper and is registered with the wait group. *)
Definition every_task_wrapped_and_joined (w : World) : Prop :=
  forall t : Task, t ∈ tasks w -> exists name, taskSpawn t = ByGoPanicWrap name.

(** No goroutine of the world is still running. *)
Definition no_task_running (w : World) : Prop :=
  forall t : Task, t ∈ tasks w -> taskRunning t = false.

(** No listener of the world is open. *)
Definition no_listener_open (w : World) : Prop :=
  forall l : Transport, listeners w l <> Listening.

(** The interceptor chain for a configuration: metrics, telemetry, and the
    authorizer when authentication is enabled. *)
Definition expected_chain (c : Config) : list Interceptor :=
  [ PrometheusInterceptor; TelemetryEntry (NewTelemetryInterceptor (Log c)) ]
  ++ (if Enable (Authn c) then [AuthorizerEntry] else []).

(** An environment in which every call into another package succeeds. *)
Definition env_ok : Env :=
  {| validate := fun _ => None; net_Listen := fun _ => None;
     messagev1_NewService := None; messagev3_NewService := None;
     grpc_DialContext := None; RegisterMessageApiHandler := None;
     RegisterMlsApiHandler := None; Listener_Close := fun _ => None |}.

(** The same, except that binding the HTTP listener fails. *)
Definition env_http_bind_fails : Env :=
  {| validate := fun _ => None;
     net_Listen := fun l =>
       match l with
       | GRPC => None
       | HTTPGateway => Some (Go.NewError "bind: address already in use" None)
       end;
     messagev1_NewService := None; messagev3_NewService := None;
     grpc_DialContext := None; RegisterMessageApiHandler := None;
     RegisterMlsApiHandler := None; Listener_Close := fun _ => None |}.

Definition config_with (authn mls : bool) : Config :=
  {| Authn := {| Enable := authn |};
     MlsStore := if mls then Some tt else None;
     EnableMls := mls;
     ConfigOptions := {| MaxMsgSize := 25 * 1024 * 1024 |};
     Log := {| LoggerName := "api" |} |}.

(** The wait group counts the goroutines that were registered with it and
    are still running. *)
Definition counted (t : Task) : bool := taskRunning t && joined t.

Definition wg_counts (w : World) : Prop :=
  wg w = length (List.filter counted (tasks w)).

(** The effects of closing a listener of the server, if it has it. *)
Definition close_effects (env : Env) (what : string) (l : option Transport)
  : list Effect :=
  match l with
  | Some l =>
      ListenerClosed l ::
      match Listener_Close env l with
      | Some err => [Logged ErrorLevel what (Some err)]
      | None => []
      end
  | None => []
  end.

(** [1] for a call that returned, [0] for one that panicked. *)
Definition returned {A} (o : Go.outcome A) : nat :=
  match o with Go.Returned _ => 1%nat | Go.Panicked _ => 0%nat end.

(** * More of the code *)

(** ** pkg/api: the serve loops and their error filter *)

(** [strings.Contains(s, substr)]. *)
Definition strings_Contains (s substr : string) : bool :=
  0 <=? Strings.Index s substr.

Definition isErrUseOfClosedConnection (err : Go.error) : bool :=
  strings_Contains (Go.Error err) "use of closed network connection".

#[global] Instance Code_eq_dec : EqDecision Go.Code.
Proof. solve_decision. Defined.

#[global] Instance Status_eq_dec : EqDecision Go.Status.
Proof. solve_decision. Defined.

#[global] Instance error_eq_dec : EqDecision Go.error.
Proof. solve_decision. Defined.

(** [http.ErrServerClosed]. *)
Definition http_ErrServerClosed : Go.error :=
  Go.NewError "http: Server closed" None.

(** The body of the goroutine that serves gRPC.  [addr] is the text of the
    listener's address and [Serve] the call [grpcServer.Serve(s.grpcListener)],
    which blocks until the server stops and returns why. *)
Definition serveGRPC (log : Logger) (addr : string)
    (Serve : Go.M Trace (option Go.error)) : Go.M Trace unit :=
  emit (LogEvent log InfoLevel "serving grpc" [zap_String "address" addr]);;
  err ← Serve;
  match err with
  | Some err =>
      if negb (isErrUseOfClosedConnection err)
      then emit (LogEvent log ErrorLevel "serving grpc" [zap_Error err])
      else mret tt
  | None => mret tt
  end.

(** The body of the goroutine that serves HTTP.  Go compares [err] with
    [http.ErrServerClosed] by the identity of the error value; here two
    errors are the same when their content is. *)
Definition serveHTTP (log : Logger) (addr : string)
    (Serve : Go.M Trace (option Go.error)) : Go.M Trace unit :=
  emit (LogEvent log InfoLevel "serving http" [zap_String "address" addr]);;
  err ← Serve;
  match err with
  | Some err =>
      if negb (bool_decide (err = http_ErrServerClosed))
         && negb (isErrUseOfClosedConnection err)
      then emit (LogEvent log ErrorLevel "serving http" [zap_Error err])
      else mret tt
  | None => mret tt
  end.

(** ** pkg/api: the interceptors as a chain *)

Definition UnaryServerInterceptor : Type :=
  Context -> Go.any -> ServerInfo -> UnaryHandler ->
  Go.M Trace (Go.any * option Go.error).

(** [middleware.ChainUnaryServer(interceptors...)]: the first interceptor is
    the outermost; each is handed, as its handler, the rest of the chain
    around the handler of the call. *)
Fixpoint ChainUnaryServer (interceptors : list UnaryServerInterceptor)
  : UnaryServerInterceptor :=
  fun ctx req info handler =>
    match interceptors with
    | [] => handler ctx req
    | interceptor :: rest =>
        interceptor ctx req info
          (fun ctx req => ChainUnaryServer rest ctx req info handler)
    end.

(** The interceptor behind an entry of the chain [startGRPC] builds.  The
    metrics interceptor and the authorizer are code of other packages. *)
Definition unary_interceptor (prometheus authorizer : UnaryServerInterceptor)
    (entry : Interceptor) : UnaryServerInterceptor :=
  match entry with
  | PrometheusInterceptor => prometheus
  | TelemetryEntry ti => TelemetryInterceptor_Unary ti
  | AuthorizerEntry => authorizer
  end.

(** ** scripts/deploy/e2e: the deploy trigger *)

Module Deploy.

Definition e2eRunnerImagePrefix : string := "xmtp/xmtpd-e2e@sha256:".

(** The command-line options, as the parser leaves them. *)
Record Options : Type :=
  { TFToken : string;
    Workspace : string;
    Organization : string;
    ContainerImage : string;
    GitCommit : string }.

(** The results of the calls [main] makes: the logger, the option parser,
    the Terraform client, the deployer, [git log] (its output or its error),
    and the deploy itself. *)
Record Env : Type :=
  { zap_NewDevelopment : option Go.error;
    Parse : option Go.error;
    tfe_NewClient : option Go.error;
    terraform_NewDeployer : option Go.error;
    git_log_Output : string + Go.error;
    Deploy : string -> string -> string -> option Go.error }.

(** What [main] does, in order. *)
Inductive Event : Type :=
| NewClient (token : string)
| NewDeployer (organization workspace : string)
| LogFatal (msg : string) (fields : list Field)
| LogError (msg : string) (fields : list Field)
| GitLog
| DeployCall (variable value message : string).

(** How the process ends: [main] returns, [log.Fatal] exits with status 1,
    or [main] panics. *)
Inductive Exit : Type :=
| Returns
| Exits (status : Z)
| Panics (v : Go.any).

(** [log.Fatal(msg, fields...)]: the entry is written, then [os.Exit(1)]. *)
Definition Fatal (done : list Event) (msg : string) (fields : list Field)
  : list Event * Exit :=
  (done ++ [LogFatal msg fields], Exits 1).

Definition main (env : Env) (options : Options) : list Event * Exit :=
  match zap_NewDevelopment env with
  | Some err => ([], Panics (Go.AnyError err))
  | None =>
  match Parse env with
  | Some err => Fatal [] "parsing options" [zap_Error err]
  | None =>
  let done := [NewClient (TFToken options)] in
  match tfe_NewClient env with
  | Some err => Fatal done "creating terraform client" [zap_Error err]
  | None =>
  let done := done ++ [NewDeployer (Organization options) (Workspace options)] in
  match terraform_NewDeployer env with
  | Some err => Fatal done "creating deployer" [zap_Error err]
  | None =>
  if String.eqb (ContainerImage options) ""
  then Fatal done "Must specify container-image" []
  else
  if negb (Strings.HasPrefix (ContainerImage options) e2eRunnerImagePrefix)
  then Fatal done "Invalid e2e image %s"
         [zap_String "image" (ContainerImage options)]
  else
  let msg := "triggered from commit " +:+ GitCommit options in
  let done := done ++ [GitLog] in
  let '(done, msg) :=
    match git_log_Output env with
    | inr err =>
        (done ++ [LogError "getting git commit message" [zap_Error err]], msg)
    | inl out => (done, out)
    end in
  let done := done ++ [DeployCall "xmtpd_e2e_image" (ContainerImage options) msg] in
  match Deploy env "xmtpd_e2e_image" (ContainerImage options) msg with
  | Some err => Fatal done "deploying" [zap_Error err]
  | None => (done, Returns)
  end end end end end.

End Deploy.

(** ** More vocabulary *)

(** The message [main] deploys with: the output of [git log] or, when that
    fails, a line that names the commit given on the command line. *)
Definition deploy_message (env : Deploy.Env) (options : Deploy.Options) : string :=
  match Deploy.git_log_Output env with
  | inl out => out
  | inr _ => "triggered from commit " +:+ Deploy.GitCommit options
  end.

(** Everything before the deploy went well: the logger, the option parser,
    the Terraform client and the deployer were set up, and the image given is
    an e2e runner image. *)
Definition ready_to_deploy (env : Deploy.Env) (options : Deploy.Options) : Prop :=
  Deploy.zap_NewDevelopment env = None
  /\ Deploy.Parse env = None
  /\ Deploy.tfe_NewClient env = None
  /\ Deploy.terraform_NewDeployer env = None
  /\ Strings.HasPrefix (Deploy.ContainerImage options)
       Deploy.e2eRunnerImagePrefix = true.

Definition is_DeployCall (e : Deploy.Event) : bool :=
  match e with Deploy.DeployCall _ _ _ => true | _ => false end.

(** The error-level log lines of a trace. *)
Definition is_error_log (e : Event) : bool :=
  match e with LogEvent _ ErrorLevel _ _ => true | _ => false end.

Definition error_logs (t : Trace) : nat := length (List.filter is_error_log t).

(** Whether the server holds the listener [l]. *)
Definition holds (s : Server) (l : Transport) : Prop :=
  grpcListener s = Some l \/ httpListener s = Some l.

(** The services a configuration asks for. *)
Definition services_of (c : Config) : list Service :=
  MessageV1 :: (if mls_enabled c then [MessageV3] else []).

(** The fields of a server that [New] has built for a configuration. *)
Definition server_fields (s : Server) (c : Config) : Prop :=
  config s = c
  /\ grpcListener s = Some GRPC
  /\ httpListener s = Some HTTPGateway
  /\ messagev1 s = Some MessageV1
  /\ messagev3 s = (if mls_enabled c then Some MessageV3 else None)
  /\ authorizer s = Enable (Authn c)
  /\ ctx s = context_Background.

(** Every step of [New] succeeds; the steps for the MLS service count only
    when it is enabled. *)
Definition all_steps_succeed (env : Env) (c : Config) : Prop :=
  validate env c = None
  /\ net_Listen env GRPC = None
  /\ messagev1_NewService env = None
  /\ (mls_enabled c = true -> messagev3_NewService env = None)
  /\ grpc_DialContext env = None
  /\ RegisterMessageApiHandler env = None
  /\ (mls_enabled c = true -> RegisterMlsApiHandler env = None)
  /\ net_Listen env HTTPGateway = None.

(** The white space bytes of ASCII: space, tab, line feed, vertical tab,
    form feed, carriage return. *)
Definition white_space : list ascii :=
  [" "; "009"; "010"; "011"; "012"; "013"]%char.

(** A string of white space bytes only. *)
Fixpoint blank (s : string) : bool :=
  match s with
  | EmptyString => true
  | String c s' => existsb (Ascii.eqb c) white_space && blank s'
  end.

(** A printing ASCII byte other than the space: the codes 33 to 126. *)
Definition visible (c : ascii) : bool :=
  ((33 <=? nat_of_ascii c) && (nat_of_ascii c <=? 126))%nat.

Definition first_byte (s : string) : option ascii :=
  match s with
  | EmptyString => None
  | String c _ => Some c
  end.

Fixpoint last_byte (s : string) : option ascii :=
  match s with
  | EmptyString => None
  | String c s' =>
      match last_byte s' with
      | Some c' => Some c'
      | None => Some c
      end
  end.

(** A text with nothing to trim: it is not empty, and its first and last
    bytes are visible.  What lies between them is free. *)
Definition solid (s : string) : bool :=
  match first_byte s, last_byte s with
  | Some a, Some b => visible a && visible b
  | _, _ => false
  end.

(** Whether an error, or a cause down its chain of wrappers, carries a gRPC
    status. *)
Fixpoint carries_status (err : Go.error) : bool :=
  match err with
  | Go.NewError _ (Some _) => true
  | Go.NewError _ None => false
  | Go.Wrap cause _ => carries_status cause
  end.

(** The fatal log lines of a run of the deploy trigger. *)
Definition is_LogFatal (e : Deploy.Event) : bool :=
  match e with Deploy.LogFatal _ _ => true | _ => false end.

Definition fatal_lines (events : list Deploy.Event) : nat :=
  length (List.filter is_LogFatal events).

(** * Properties *)

(** ** Strings *)

Section StringFacts.
Import Strings.

Lemma slice_to_app (a b : string) : slice_to (a +:+ b) (String.length a) = a.
Proof. induction a as [|c a IH]; simpl; [by destruct b | by rewrite IH]. Qed.

Lemma slice_from_app (a b : string) (c : ascii) :
  slice_from (a +:+ String c b) (S (String.length a)) = b.
Proof. induction a as [|c' a IH]; simpl; [by destruct b | done]. Qed.

Lemma HasPrefix_empty (s : string) : HasPrefix s "" = true.
Proof. by destruct s. Qed.

(** Without the byte, [Index] answers -1. *)
Lemma Index_absent (c : ascii) (s : string) :
  has_byte c s = false -> Index s (String c EmptyString) = -1.
Proof.
  induction s as [|c' s IH]; simpl; [done|].
  intros [Hc Hs]%orb_false_iff. rewrite Ascii.eqb_sym, Hc.
  by rewrite (IH Hs).
Qed.

(** The first occurrence of the byte is where [Index] points. *)
Lemma Index_first (c : ascii) (a b : string) :
  has_byte c a = false ->
  Index (a +:+ String c b) (String c EmptyString) = Z.of_nat (String.length a).
Proof.
  induction a as [|c' a IH]; intros Ha.
  - simpl. by rewrite Ascii.eqb_refl, HasPrefix_empty.
  - simpl in Ha. apply orb_false_iff in Ha as [Hc Ha].
    simpl. rewrite Ascii.eqb_sym, Hc, (IH Ha).
    destruct (Z.ltb_spec (Z.of_nat (String.length a)) 0); lia.
Qed.

Lemma TrimPrefix_slash (s : string) :
  TrimPrefix (String "/" s) "/" = s.
Proof. unfold TrimPrefix. simpl. by destruct s. Qed.

Lemma SplitByte_nonempty (s : string) (sep : ascii) : SplitByte s sep <> [].
Proof.
  induction s as [|c s IH]; simpl; [done|].
  destruct (Ascii.eqb c sep); [done|]. by destruct (SplitByte s sep).
Qed.

(** The first piece of a split is the text before the first separator. *)
Lemma SplitByte_first (a b : string) (sep : ascii) :
  has_byte sep a = false ->
  exists rest, SplitByte (a +:+ String sep b) sep = a :: rest.
Proof.
  induction a as [|c a IH]; intros Ha.
  - simpl. rewrite Ascii.eqb_refl. eauto.
  - simpl in Ha. apply orb_false_iff in Ha as [Hc Ha].
    destruct (IH Ha) as [rest Hrest].
    simpl. rewrite Hc, Hrest. eauto.
Qed.

Lemma SplitByte_no_sep (a : string) (sep : ascii) :
  has_byte sep a = false -> SplitByte a sep = [a].
Proof.
  induction a as [|c a IH]; intros Ha; [done|].
  simpl in Ha. apply orb_false_iff in Ha as [Hc Ha].
  simpl. by rewrite Hc, (IH Ha).
Qed.
End StringFacts.

Example SplitByte_proxy_chain :
  Strings.SplitByte "203.0.113.5, 10.0.0.1" ","
  = ["203.0.113.5"; " 10.0.0.1"].
Proof. reflexivity. Qed.

Example TrimSpace_address : Strings.TrimSpace "  10.0.0.1 " = "10.0.0.1".
Proof. reflexivity. Qed.

Example CanonicalMIMEHeaderKey_lower_case :
  HTTP.CanonicalMIMEHeaderKey "access-control-request-method"
  = "Access-Control-Request-Method".
Proof. reflexivity. Qed.

(** ** The method name *)

(** C8.  [splitMethodName] first removes a leading slash, and only that: a
    name without one is taken as it is.  If what is left
    is [service/method], the separator shown being the first one, the result
    is [(service, method)]; if what is left holds no separator, both
    components are the sentinel ["unknown"].  The function is total, so it
    never fails. *)
Theorem splitMethodName_first_separator (fullMethodName : string) :
  let name := Strings.TrimPrefix fullMethodName "/" in
  (forall rest : string, fullMethodName = String "/" rest -> name = rest)
  /\ (Strings.HasPrefix fullMethodName "/" = false -> name = fullMethodName)
  /\ (forall service method : string,
      name = service +:+ String "/" method ->
      Strings.has_byte "/" service = false ->
      splitMethodName fullMethodName = (service, method))
  /\ (Strings.has_byte "/" name = false ->
      splitMethodName fullMethodName = ("unknown", "unknown")).
Proof.
  intros name; split; [|split; [|split]].
  - intros rest ->. apply TrimPrefix_slash.
  - intros Hno. unfold name, Strings.TrimPrefix. by rewrite Hno.
  - intros service method Hname Hsvc. unfold splitMethodName.
    fold name. rewrite Hname, (Index_first _ _ _ Hsvc).
    destruct (Z.leb_spec 0 (Z.of_nat (String.length service))); [|lia].
    replace (Z.to_nat (Z.of_nat (String.length service) + 1))
      with (S (String.length service)) by lia.
    rewrite Nat2Z.id. f_equal; [apply slice_to_app | apply slice_from_app].
  - intros Hname. unfold splitMethodName. fold name.
    by rewrite (Index_absent _ _ Hname).
Qed.

Lemma splitMethodName_first_separator_witness :
  splitMethodName "/xmtp.message_api.v1.MessageApi/Publish"
  = ("xmtp.message_api.v1.MessageApi", "Publish")
  /\ splitMethodName "/Publish" = ("unknown", "unknown").
Proof.
  split.
  - apply (proj1 (proj2 (proj2 (splitMethodName_first_separator
                    "/xmtp.message_api.v1.MessageApi/Publish"))));
      reflexivity.
  - apply (proj2 (proj2 (proj2 (splitMethodName_first_separator "/Publish"))));
      reflexivity.
Defined.

Example splitMethodName_nested :
  splitMethodName "svc/a/b" = ("svc", "a/b").
Proof. reflexivity. Qed.

Example splitMethodName_empty : splitMethodName "" = ("unknown", "unknown").
Proof. reflexivity. Qed.

(** ** The span wrapper *)

Section DoFacts.
Import Go Tracing.
Context {App : Type}.

Lemma finish_count_snoc (span : Span) (tr : Tracer) (tag : option error) :
  finish_count span
    {| nextSpanID := nextSpanID tr; started := started tr;
       finished := finished tr ++ [(span, tag)] |}
  = S (finish_count span tr).
Proof.
  unfold finish_count. simpl. rewrite filter_app, length_app.
  rewrite filter_cons_True by done. simpl. lia.
Qed.

(** C5.  [Do] starts a span and runs [action] on the context that carries
    it.  However [action] ends, [Do] then calls [Finish] on the span exactly
    once: tagged with the error when [action] panicked with an error value,
    untagged when it returned or panicked with any other value.  [Do] ends
    the way [action] did: a normal return stays a normal return, and a
    panic leaves [Do] with the very same value. *)
Theorem Do_finishes_once_and_repanics
    (ctx : Context) (spanName : string)
    (action : Context -> M (Tracer * App) unit)
    (tr : Tracer) (app : App) :
  let span := {| SpanID := nextSpanID tr; SpanName := spanName;
                 SpanParent := SpanID <$> ctxSpan ctx |} in
  let ctx' := {| ctxSpan := Some span; ctxMD := ctxMD ctx;
                 ctxRequester := ctxRequester ctx |} in
  let tr0 := {| nextSpanID := S (nextSpanID tr);
                started := started tr ++ [span];
                finished := finished tr |} in
  forall (o : outcome unit) (tr1 : Tracer) (app1 : App),
    action ctx' (tr0, app) = (o, (tr1, app1)) ->
    let tag := match o with
               | Panicked (AnyError e) => Some e
               | _ => None
               end in
    let tr2 := {| nextSpanID := nextSpanID tr1; started := started tr1;
                  finished := finished tr1 ++ [(span, tag)] |} in
    Do ctx spanName action (tr, app) = (o, (tr2, app1))
    /\ finish_count span tr2 = S (finish_count span tr1).
Proof.
  intros span ctx' tr0 o tr1 app1 Hact tag tr2.
  split; [|apply finish_count_snoc].
  unfold Do, mbind, M_bind, bind, StartSpanFromContext, defer_recover.
  fold span ctx' tr0. rewrite Hact.
  destruct o as [[]|[e|s|n]]; reflexivity.
Qed.
End DoFacts.

Lemma Do_finishes_once_and_repanics_witness :
  let boom := Go.NewError "boom" None in
  let span := {| SpanID := 0; SpanName := "grpc"; SpanParent := None |} in
  Tracing.Do context_Background "grpc"
    (fun _ => Go.panic (Go.AnyError boom)) (Tracing.Tracer_empty, tt)
  = (Go.Panicked (Go.AnyError boom),
     ({| Tracing.nextSpanID := 1; Tracing.started := [span];
         Tracing.finished := [(span, Some boom)] |}, tt))
  /\ Tracing.finish_count span
       {| Tracing.nextSpanID := 1; Tracing.started := [span];
          Tracing.finished := [(span, Some boom)] |}
     = 1%nat.
Proof.
  intros boom span.
  apply (Do_finishes_once_and_repanics context_Background "grpc"
           (fun _ => Go.panic (Go.AnyError boom)) Tracing.Tracer_empty tt
           (Go.Panicked (Go.AnyError boom))
           {| Tracing.nextSpanID := 1; Tracing.started := [span];
              Tracing.finished := [] |} tt).
  reflexivity.
Defined.

(** ** The CORS wrapper *)

Section CORSFacts.
Import HTTP.

Lemma Header_Get_Set (h : Header) (key value : string) :
  Header_Get (Header_Set h key value) key = value.
Proof. unfold Header_Get, Header_Set. by rewrite lookup_insert_eq. Qed.

Lemma Header_Get_Set_ne (h : Header) (key key' value : string) :
  CanonicalMIMEHeaderKey key <> CanonicalMIMEHeaderKey key' ->
  Header_Get (Header_Set h key value) key' = Header_Get h key'.
Proof.
  intros Hne. unfold Header_Get, Header_Set. by rewrite lookup_insert_ne.
Qed.

Lemma preflight_test (r : Request) :
  String.eqb (Method r) "OPTIONS"
  && negb (String.eqb
             (Header_Get (ReqHeader r) "Access-Control-Request-Method") "")
  = true <-> is_preflight r.
Proof.
  unfold is_preflight.
  rewrite andb_true_iff, negb_true_iff, String.eqb_eq, String.eqb_neq.
  done.
Qed.

(** What [preflightHandler] leaves in the response headers. *)
Lemma preflightHandler_headers (w : ResponseWriter) (r : Request) :
  let w' := preflightHandler w r in
  Header_Get (RespHeader w') "Access-Control-Allow-Headers" = allowed_headers
  /\ Header_Get (RespHeader w') "Access-Control-Allow-Methods" = allowed_methods
  /\ Header_Get (RespHeader w') "Access-Control-Allow-Origin"
     = Header_Get (RespHeader w) "Access-Control-Allow-Origin"
  /\ RespStatus w' = RespStatus w
  /\ RespBody w' = RespBody w.
Proof.
  unfold preflightHandler, set_header; simpl.
  repeat split.
  - rewrite Header_Get_Set_ne by (vm_compute; discriminate).
    by rewrite Header_Get_Set.
  - by rewrite Header_Get_Set.
  - by rewrite !Header_Get_Set_ne by (vm_compute; discriminate).
Qed.

(** C10.  The wrapper first sets [Access-Control-Allow-Origin: *] on the
    response.  A request with method OPTIONS and a non-empty
    [Access-Control-Request-Method] header is answered by the preflight
    handler, with the fixed lists of headers and methods, whatever the
    wrapped handler is (it is not run); every other request, an OPTIONS
    request without that header among them, goes to the wrapped handler,
    which receives the response with the origin header already set. *)
Theorem allowCORS_preflight_iff (h : Handler) (w : ResponseWriter) (r : Request) :
  let w0 := set_header w "Access-Control-Allow-Origin" "*" in
  Header_Get (RespHeader w0) "Access-Control-Allow-Origin" = "*"
  /\ (is_preflight r ->
      allowCORS h w r = preflightHandler w0 r
      /\ Header_Get (RespHeader (allowCORS h w r))
           "Access-Control-Allow-Headers" = allowed_headers
      /\ Header_Get (RespHeader (allowCORS h w r))
           "Access-Control-Allow-Methods" = allowed_methods
      /\ Header_Get (RespHeader (allowCORS h w r))
           "Access-Control-Allow-Origin" = "*")
  /\ (~ is_preflight r -> allowCORS h w r = h w0 r)
  /\ (Method r = "OPTIONS" ->
      Header_Get (ReqHeader r) "Access-Control-Request-Method" = "" ->
      allowCORS h w r = h w0 r).
Proof.
  intros w0.
  assert (Horigin : Header_Get (RespHeader w0) "Access-Control-Allow-Origin" = "*")
    by apply Header_Get_Set.
  assert (Hpass : ~ is_preflight r -> allowCORS h w r = h w0 r).
  { intros Hno. unfold allowCORS. fold w0.
    destruct (_ && _) eqn:Htest; [|done].
    by apply preflight_test in Htest. }
  split; [done|]. split; [|split; [done|]].
  - intros Hpre.
    assert (Heq : allowCORS h w r = preflightHandler w0 r).
    { unfold allowCORS. fold w0. apply preflight_test in Hpre.
      by rewrite Hpre. }
    rewrite Heq.
    destruct (preflightHandler_headers w0 r) as (Hh & Hm & Ho & _).
    by rewrite Hh, Hm, Ho.
  - intros _ Hempty. apply Hpass. by intros [_ Hne].
Qed.
End CORSFacts.

Lemma allowCORS_preflight_iff_witness :
  let preflight :=
    {| HTTP.Method := "OPTIONS"; HTTP.URLPath := "/message/v1/publish";
       HTTP.ReqHeader := {[ "Access-Control-Request-Method" := ["POST"] ]} |} in
  let plain :=
    {| HTTP.Method := "OPTIONS"; HTTP.URLPath := "/message/v1/publish";
       HTTP.ReqHeader := ∅ |} in
  let w := {| HTTP.RespHeader := ∅; HTTP.RespStatus := None;
              HTTP.RespBody := "" |} in
  let h : HTTP.Handler := fun w _ =>
    {| HTTP.RespHeader := HTTP.RespHeader w; HTTP.RespStatus := Some 200;
       HTTP.RespBody := "proxied" |} in
  HTTP.Header_Get (HTTP.RespHeader (allowCORS h w preflight))
    "Access-Control-Allow-Methods" = allowed_methods
  /\ allowCORS h w plain
     = h (HTTP.set_header w "Access-Control-Allow-Origin" "*") plain.
Proof.
  intros preflight plain w h. split.
  - apply (allowCORS_preflight_iff h w preflight).
    split; [reflexivity | vm_compute; discriminate].
  - apply (allowCORS_preflight_iff h w plain); reflexivity.
Defined.

(** ** The telemetry recorder *)

Section TelemetryFacts.
Import Go.

Lemma Metadata_Get_forwarded (ctx : Context) :
  Metadata.Get (fst (Metadata.FromIncomingContext ctx)) "x-forwarded-for"
  = default [] (forwarded_for ctx).
Proof.
  unfold Metadata.Get, Metadata.FromIncomingContext, forwarded_for.
  change (Metadata.ToLower "x-forwarded-for") with "x-forwarded-for".
  destruct (ctxMD ctx) as [md|]; simpl; [done|].
  by rewrite lookup_empty.
Qed.

Local Ltac run_record :=
  simpl; unfold emit, modify, mbind, M_bind, bind; simpl;
  rewrite <- ?app_assoc, ?app_nil_r; simpl; reflexivity.

(** One call of [record] never panics and appends exactly the two events
    of one record. *)
Lemma record_effect (ti : TelemetryInterceptor) (ctx : Context)
    (fullMethod : string) (err : option error) (t : Trace) :
  record ti ctx fullMethod err t
  = (Returned tt,
     t ++ record_events ti ctx fullMethod (record_level err)
            (client_ip_fields ctx) err).
Proof.
  unfold record, record_events, client_ip_fields, error_fields.
  destruct (splitMethodName fullMethod) as [serviceName methodName]; simpl.
  pose proof (Metadata_Get_forwarded ctx) as Hget.
  destruct (Metadata.FromIncomingContext ctx) as [md ok]; simpl in Hget.
  rewrite Hget.
  destruct (forwarded_for ctx) as [[|ips0 ips]|]; simpl.
  - destruct err as [e|]; [destruct (status_FromError e)|]; run_record.
  - pose proof (SplitByte_nonempty ips0 ",") as Hne.
    destruct (Strings.SplitByte ips0 ",") as [|ip rest]; [done|].
    destruct err as [e|]; [destruct (status_FromError e)|]; run_record.
  - destruct err as [e|]; [destruct (status_FromError e)|]; run_record.
Qed.

Lemma records_in_app (t t' : Trace) :
  records_in (t ++ t') = (records_in t + records_in t')%nat.
Proof. unfold records_in. by rewrite List.filter_app, length_app. Qed.

Lemma records_in_record_events ti ctx fullMethod lvl ip err :
  records_in (record_events ti ctx fullMethod lvl ip err) = 1%nat.
Proof. reflexivity. Qed.

Lemma Unary_run ti ctx req info (handler : UnaryHandler) (t : Trace) :
  TelemetryInterceptor_Unary ti ctx req info handler t
  = match handler ctx req t with
    | (Returned (res, err), t') =>
        (Returned (res, err),
         t' ++ record_events ti ctx (FullMethod info) (record_level err)
                 (client_ip_fields ctx) err)
    | (Panicked v, t') => (Panicked v, t')
    end.
Proof.
  unfold TelemetryInterceptor_Unary, mbind, M_bind, bind.
  destruct (handler ctx req t) as [[[res err]|v] t']; [|done].
  by rewrite record_effect.
Qed.

Lemma Stream_run ti srv stream info (handler : StreamHandler) (t : Trace) :
  TelemetryInterceptor_Stream ti srv stream info handler t
  = match handler srv stream t with
    | (Returned res, t') =>
        (Returned res,
         t' ++ record_events ti (StreamContext stream) (FullMethod info)
                 DebugLevel (client_ip_fields (StreamContext stream)) None)
    | (Panicked v, t') => (Panicked v, t')
    end.
Proof.
  unfold TelemetryInterceptor_Stream, mbind, M_bind, bind.
  destruct (handler srv stream t) as [[res|v] t']; [|done].
  by rewrite record_effect.
Qed.

(** C2, as the code has it.  Through either telemetry interceptor, a call
    whose handler returns, with or without an error, gets exactly one
    telemetry record, made after the handler, and the interceptor returns
    what the handler returned.  When the handler panics the interceptor
    makes no record: the panic passes through it with its value. *)
Theorem telemetry_records_once_per_returned_call
    (ti : TelemetryInterceptor) (info : ServerInfo) (t : Trace) :
  (forall (ctx : Context) (req : any) (handler : UnaryHandler),
      let '(o, t') := handler ctx req t in
      let '(o2, t2) := TelemetryInterceptor_Unary ti ctx req info handler t in
      o2 = o /\ records_in t2 = (records_in t' + returned o)%nat)
  /\ (forall (srv : any) (stream : ServerStream) (handler : StreamHandler),
      let '(o, t') := handler srv stream t in
      let '(o2, t2) := TelemetryInterceptor_Stream ti srv stream info handler t in
      o2 = o /\ records_in t2 = (records_in t' + returned o)%nat).
Proof.
  split.
  - intros ctx req handler. rewrite Unary_run.
    destruct (handler ctx req t) as [[[res err]|v] t']; simpl.
    + by rewrite records_in_app, records_in_record_events.
    + split; [done | lia].
  - intros srv stream handler. rewrite Stream_run.
    destruct (handler srv stream t) as [[res|v] t']; simpl.
    + by rewrite records_in_app, records_in_record_events.
    + split; [done | lia].
Qed.

(** C6.  When a stream handler returns, the streaming interceptor hands
    the recorder a nil error whatever the handler returned: the record is
    the one [record] makes for a nil error, logged at debug level.  The
    handler's own result goes back to the transport unchanged. *)
Theorem Stream_records_success_and_returns_result
    (ti : TelemetryInterceptor) (srv : any) (stream : ServerStream)
    (info : ServerInfo) (handler : StreamHandler)
    (t t' : Trace) (res : option error) :
  handler srv stream t = (Returned res, t') ->
  let ctx := StreamContext stream in
  TelemetryInterceptor_Stream ti srv stream info handler t
  = (Returned res, snd (record ti ctx (FullMethod info) None t'))
  /\ snd (record ti ctx (FullMethod info) None t')
     = t' ++ record_events ti ctx (FullMethod info) DebugLevel
               (client_ip_fields ctx) None.
Proof.
  intros Hh ctx. rewrite Stream_run, Hh, record_effect. done.
Qed.
End TelemetryFacts.

(** C2, as the specification states it, fails: a unary handler that panics
    leaves the interceptor without any telemetry record. *)
Lemma Unary_panic_leaves_no_record :
  let ti := NewTelemetryInterceptor {| LoggerName := "api" |} in
  let info := {| FullMethod := "/xmtp.message_api.v1.MessageApi/Publish" |} in
  let handler : UnaryHandler := fun _ _ => Go.panic (Go.AnyString "boom") in
  let run := TelemetryInterceptor_Unary ti context_Background
               (Go.AnyString "request") info handler [] in
  fst run = Go.Panicked (Go.AnyString "boom")
  /\ records_in (snd run) <> 1%nat.
Proof. split; [reflexivity | vm_compute; discriminate]. Qed.

Lemma Stream_records_success_and_returns_result_witness :
  let ti := NewTelemetryInterceptor {| LoggerName := "api" |} in
  let info := {| FullMethod := "/xmtp.message_api.v1.MessageApi/Subscribe" |} in
  let failed := Go.NewError "stream reset"
                  (Some {| Go.StatusCode := Go.Unavailable;
                           Go.StatusMessage := "stream reset" |}) in
  let handler : StreamHandler := fun _ _ =>
    emit (OtherEffect "sent 3 envelopes");; mret (Some failed) in
  let stream := {| StreamContext := context_Background |} in
  TelemetryInterceptor_Stream ti (Go.AnyString "srv") stream info handler []
  = (Go.Returned (Some failed),
     snd (record ti context_Background (FullMethod info) None
            [OtherEffect "sent 3 envelopes"])).
Proof.
  intros ti info failed handler stream.
  apply (Stream_records_success_and_returns_result ti (Go.AnyString "srv")
           stream info handler [] [OtherEffect "sent 3 envelopes"] (Some failed)).
  reflexivity.
Defined.

(** ** [TrimSpace] *)

Section TrimFacts.
Import Strings.

Local Arguments isAsciiSpace : simpl never.
Local Arguments isSpace2 : simpl never.
Local Arguments isSpace3 : simpl never.

Lemma string_append_assoc (a b c : string) :
  (a +:+ b) +:+ c = a +:+ (b +:+ c).
Proof.
  induction a as [|x a IH]; [done | exact (f_equal (String x) IH)].
Qed.

Lemma has_byte_append (c : ascii) (a b : string) :
  has_byte c (a +:+ b) = has_byte c a || has_byte c b.
Proof.
  induction a as [|x a IH]; simpl; [done|]. by rewrite IH, orb_assoc.
Qed.

Lemma white_space_isAsciiSpace (c : ascii) :
  existsb (Ascii.eqb c) white_space = true -> isAsciiSpace c = true.
Proof.
  simpl. rewrite !orb_true_iff. intros H.
  decompose [or] H; try discriminate;
    match goal with
    | E : Ascii.eqb _ _ = true |- _ => apply Ascii.eqb_eq in E; subst c
    end; reflexivity.
Qed.

Lemma white_space_not_comma (c : ascii) :
  existsb (Ascii.eqb c) white_space = true -> Ascii.eqb c "," = false.
Proof.
  simpl. rewrite !orb_true_iff. intros H.
  decompose [or] H; try discriminate;
    match goal with
    | E : Ascii.eqb _ _ = true |- _ => apply Ascii.eqb_eq in E; subst c
    end; reflexivity.
Qed.

Lemma blank_no_comma (s : string) : blank s = true -> has_byte "," s = false.
Proof.
  induction s as [|c s IH]; simpl; [done|].
  intros [Hc Hs]%andb_true_iff.
  by rewrite (white_space_not_comma c Hc), (IH Hs).
Qed.

(** A visible byte is no white space, and neither starts nor ends the
    encoding of a white space character beyond ASCII. *)
Lemma visible_not_space (c : ascii) :
  visible c = true ->
  isAsciiSpace c = false
  /\ forall c2 : ascii,
       isSpace2 c c2 = false /\ isSpace2 c2 c = false
       /\ forall c3 : ascii,
            isSpace3 c c2 c3 = false /\ isSpace3 c3 c2 c = false.
Proof.
  unfold visible, isAsciiSpace, isSpace2, isSpace3.
  generalize (nat_of_ascii c). intros n [Hlo Hhi]%andb_true_iff.
  apply Nat.leb_le in Hlo. apply Nat.leb_le in Hhi.
  assert (Heq : forall k : nat, (k < 33 \/ 126 < k)%nat -> (n =? k)%nat = false).
  { intros k Hk. apply Nat.eqb_neq. lia. }
  assert (H13 : (n <=? 13)%nat = false) by (apply Nat.leb_gt; lia).
  assert (H128 : (128 <=? n)%nat = false) by (apply Nat.leb_gt; lia).
  split; [|intros c2; split; [|split; [|intros c3; split]]].
  - rewrite H13, (Heq 32%nat) by lia. by rewrite andb_false_r.
  - by rewrite (Heq 194%nat) by lia.
  - rewrite (Heq 133%nat), (Heq 160%nat) by lia. by rewrite andb_false_r.
  - by rewrite (Heq 225%nat), (Heq 226%nat), (Heq 227%nat) by lia.
  - rewrite H128, (Heq 128%nat), (Heq 168%nat), (Heq 169%nat), (Heq 175%nat),
      (Heq 159%nat) by lia.
    simpl. by rewrite !andb_false_r.
Qed.

Lemma TrimLeftSpace_blank (lead s : string) :
  blank lead = true -> TrimLeftSpace (lead +:+ s) = TrimLeftSpace s.
Proof.
  induction lead as [|c lead IH]; [done|].
  intros [Hc Hl]%andb_true_iff.
  change (String c lead +:+ s) with (String c (lead +:+ s)).
  simpl. by rewrite (white_space_isAsciiSpace c Hc), IH.
Qed.

Lemma TrimLeftSpace_visible (c : ascii) (s : string) :
  visible c = true -> TrimLeftSpace (String c s) = String c s.
Proof.
  intros [H1 H2]%visible_not_space. simpl. rewrite H1.
  destruct s as [|c2 s]; [done|]. rewrite (proj1 (H2 c2)).
  destruct s as [|c3 s]; [done|].
  by rewrite (proj1 (proj2 (proj2 (H2 c2)) c3)).
Qed.

Lemma TrimLeftSpaceRev_visible (c : ascii) (s : string) :
  visible c = true -> TrimLeftSpaceRev (String c s) = String c s.
Proof.
  intros [H1 H2]%visible_not_space. simpl. rewrite H1.
  destruct s as [|c2 s]; [done|]. rewrite (proj1 (proj2 (H2 c2))).
  destruct s as [|c3 s]; [done|].
  by rewrite (proj2 (proj2 (proj2 (H2 c2)) c3)).
Qed.

Lemma rev_onto_append (a b acc : string) :
  rev_onto (a +:+ b) acc = rev_onto b (rev_onto a acc).
Proof.
  revert acc. induction a as [|x a IH]; intros acc; simpl; [done | apply IH].
Qed.

Lemma rev_onto_acc (s acc : string) :
  rev_onto s acc = rev_onto s "" +:+ acc.
Proof.
  revert acc. induction s as [|x s IH]; intros acc; simpl; [done|].
  by rewrite (IH (String x acc)), (IH (String x "")), string_append_assoc.
Qed.

Lemma rev_onto_involutive (s : string) : rev_onto (rev_onto s "") "" = s.
Proof.
  induction s as [|x s IH]; simpl; [done|].
  by rewrite (rev_onto_acc s (String x "")), rev_onto_append, IH.
Qed.

Lemma TrimLeftSpaceRev_blank (trail s : string) :
  blank trail = true ->
  TrimLeftSpaceRev (rev_onto trail s) = TrimLeftSpaceRev s.
Proof.
  revert s. induction trail as [|c trail IH]; intros s; [done|].
  intros [Hc Hl]%andb_true_iff. simpl. rewrite (IH _ Hl). simpl.
  by rewrite (white_space_isAsciiSpace c Hc).
Qed.

Lemma last_byte_None (s : string) : last_byte s = None -> s = "".
Proof. destruct s as [|c s]; simpl; [done|]. by destruct (last_byte s). Qed.

Lemma rev_onto_last_byte (s acc : string) (c : ascii) :
  last_byte s = Some c -> exists s' : string, rev_onto s acc = String c s'.
Proof.
  revert acc. induction s as [|x s IH]; intros acc; simpl; [done|].
  destruct (last_byte s) as [c'|] eqn:Hlast.
  - intros [= ->]. by apply IH.
  - intros [= ->]. rewrite (last_byte_None s Hlast). by eexists.
Qed.

Lemma TrimRightSpace_blank (s trail : string) :
  blank trail = true -> TrimRightSpace (s +:+ trail) = TrimRightSpace s.
Proof.
  intros Ht. unfold TrimRightSpace.
  by rewrite rev_onto_append, (TrimLeftSpaceRev_blank trail _ Ht).
Qed.

Lemma TrimRightSpace_visible (s : string) (c : ascii) :
  last_byte s = Some c -> visible c = true -> TrimRightSpace s = s.
Proof.
  intros Hlast Hc. unfold TrimRightSpace.
  destruct (rev_onto_last_byte s "" c Hlast) as [s' Hrev].
  rewrite Hrev, (TrimLeftSpaceRev_visible c s' Hc), <- Hrev.
  apply rev_onto_involutive.
Qed.

(** [TrimSpace] removes the white space around a text and nothing else. *)
Lemma TrimSpace_solid (lead core trail : string) :
  blank lead = true -> blank trail = true -> solid core = true ->
  TrimSpace (lead +:+ core +:+ trail) = core.
Proof.
  intros Hlead Htrail Hcore. unfold TrimSpace, solid in *.
  rewrite (TrimLeftSpace_blank lead _ Hlead).
  destruct core as [|c core']; [done|]. simpl first_byte in Hcore.
  destruct (last_byte (String c core')) as [d|] eqn:Hlast; [|done].
  apply andb_true_iff in Hcore as [Hc Hd].
  change (String c core' +:+ trail) with (String c (core' +:+ trail)).
  rewrite (TrimLeftSpace_visible c _ Hc).
  change (String c (core' +:+ trail)) with (String c core' +:+ trail).
  rewrite (TrimRightSpace_blank _ trail Htrail).
  exact (TrimRightSpace_visible _ d Hlast Hd).
Qed.

Lemma solid_no_comma_around (lead core trail : string) :
  blank lead = true -> blank trail = true -> has_byte "," core = false ->
  has_byte "," (lead +:+ core +:+ trail) = false.
Proof.
  intros Hlead Htrail Hcore.
  by rewrite !has_byte_append, (blank_no_comma lead Hlead), Hcore,
       (blank_no_comma trail Htrail).
Qed.
End TrimFacts.

(** ** The caller address *)

Section ClientIPFacts.
Import Go.

Lemma client_ip_fields_single (ctx : Context) (a : string) (rest : list string) :
  forwarded_for ctx = Some (a :: rest) ->
  Strings.has_byte "," a = false ->
  client_ip_fields ctx = [zap_String "client_ip" (Strings.TrimSpace a)].
Proof.
  intros Hfwd Ha. unfold client_ip_fields.
  by rewrite Hfwd, (SplitByte_no_sep a "," Ha).
Qed.

Lemma client_ip_fields_first (ctx : Context) (a b : string) (rest : list string) :
  forwarded_for ctx = Some ((a +:+ String "," b) :: rest) ->
  Strings.has_byte "," a = false ->
  client_ip_fields ctx = [zap_String "client_ip" (Strings.TrimSpace a)].
Proof.
  intros Hfwd Ha. unfold client_ip_fields. rewrite Hfwd.
  by destruct (SplitByte_first a b "," Ha) as [pieces ->].
Qed.

(** The recorder's own fields other than the address field never use the
    key of the address field. *)
Lemma error_fields_no_client_ip (err : option error) (f : Field) :
  f ∈ error_fields err -> Key f <> "client_ip".
Proof.
  destruct err as [e|]; simpl; [|by intros ?%elem_of_nil].
  destruct (status_FromError e); rewrite !elem_of_cons, elem_of_nil;
    intuition (subst; simpl; discriminate).
Qed.

(** C9.  What [record] emits for the caller address.
    - With the forwarding value ["203.0.113.5, 10.0.0.1"] the record has
      the field [client_ip] with value ["203.0.113.5"].
    - In general the field holds the text before the first comma of the
      first forwarding value, or the whole value when it has no comma, with
      surrounding white space removed.
    - The white space goes and nothing else: when that text is an address
      [core] that begins and ends with a visible byte, with white space
      [lead] before it and white space [trail] after it, the field holds
      [core] itself, whether a comma follows or not.
    - Without the forwarding header, or with no value under it, the record
      has the service and method fields, the requester fields and the error
      fields only: the recorder adds no [client_ip] field. *)
Theorem record_client_ip (ti : TelemetryInterceptor) (ctx : Context)
    (fullMethod : string) (err : option error) (t : Trace) :
  (forall rest : list string,
      forwarded_for ctx = Some ("203.0.113.5, 10.0.0.1" :: rest) ->
      record ti ctx fullMethod err t
      = (Returned tt,
         t ++ record_events ti ctx fullMethod (record_level err)
                [zap_String "client_ip" "203.0.113.5"] err))
  /\ (forall (a b : string) (rest : list string),
      forwarded_for ctx = Some ((a +:+ String "," b) :: rest) ->
      Strings.has_byte "," a = false ->
      record ti ctx fullMethod err t
      = (Returned tt,
         t ++ record_events ti ctx fullMethod (record_level err)
                [zap_String "client_ip" (Strings.TrimSpace a)] err))
  /\ (forall (a : string) (rest : list string),
      forwarded_for ctx = Some (a :: rest) ->
      Strings.has_byte "," a = false ->
      record ti ctx fullMethod err t
      = (Returned tt,
         t ++ record_events ti ctx fullMethod (record_level err)
                [zap_String "client_ip" (Strings.TrimSpace a)] err))
  /\ (forall (lead core trail : string) (rest : list string),
      blank lead = true -> blank trail = true -> solid core = true ->
      Strings.has_byte "," core = false ->
      (forwarded_for ctx = Some ((lead +:+ core +:+ trail) :: rest)
       \/ exists b : string,
            forwarded_for ctx
            = Some ((lead +:+ core +:+ trail +:+ String "," b) :: rest)) ->
      record ti ctx fullMethod err t
      = (Returned tt,
         t ++ record_events ti ctx fullMethod (record_level err)
                [zap_String "client_ip" core] err))
  /\ (forwarded_for ctx = None \/ forwarded_for ctx = Some [] ->
      record ti ctx fullMethod err t
      = (Returned tt,
         t ++ record_events ti ctx fullMethod (record_level err) [] err)
      /\ forall f : Field, f ∈ error_fields err -> Key f <> "client_ip").
Proof.
  rewrite record_effect. split; [|split; [|split; [|split]]].
  - intros rest Hfwd.
    by rewrite (client_ip_fields_first ctx "203.0.113.5" " 10.0.0.1" rest Hfwd).
  - intros a b rest Hfwd Ha.
    by rewrite (client_ip_fields_first ctx a b rest Hfwd Ha).
  - intros a rest Hfwd Ha.
    by rewrite (client_ip_fields_single ctx a rest Hfwd Ha).
  - intros lead core trail rest Hlead Htrail Hcore Hcomma Hfwd.
    pose proof (solid_no_comma_around lead core trail Hlead Htrail Hcomma)
      as Hnone.
    destruct Hfwd as [Hfwd | [b Hfwd]].
    + rewrite (client_ip_fields_single ctx _ rest Hfwd Hnone).
      by rewrite (TrimSpace_solid lead core trail Hlead Htrail Hcore).
    + replace (lead +:+ core +:+ trail +:+ String "," b)
        with ((lead +:+ core +:+ trail) +:+ String "," b) in Hfwd
        by (by rewrite !string_append_assoc).
      rewrite (client_ip_fields_first ctx _ b rest Hfwd Hnone).
      by rewrite (TrimSpace_solid lead core trail Hlead Htrail Hcore).
  - intros Hnone. split; [|apply error_fields_no_client_ip].
    unfold client_ip_fields. by destruct Hnone as [-> | ->].
Qed.
End ClientIPFacts.

Lemma record_client_ip_witness :
  let ti := NewTelemetryInterceptor {| LoggerName := "api" |} in
  let proxied :=
    {| ctxSpan := None;
       ctxMD := Some {[ "x-forwarded-for" := ["203.0.113.5, 10.0.0.1"] ]};
       ctxRequester := [] |} in
  let padded :=
    {| ctxSpan := None;
       ctxMD := Some {[ "x-forwarded-for" :=
                          ["  203.0.113.5" +:+ String "009" " , 10.0.0.1"] ]};
       ctxRequester := [] |} in
  let fields ip :=
    [ zap_String "service" "svc"; zap_String "method" "Publish" ] ++ ip in
  record ti proxied "/svc/Publish" None []
  = (Go.Returned tt,
     [ LogEvent (log ti) DebugLevel "api request"
         (fields [zap_String "client_ip" "203.0.113.5"]);
       EmitAPIRequest proxied (fields [zap_String "client_ip" "203.0.113.5"]) ])
  /\ record ti padded "/svc/Publish" None []
     = (Go.Returned tt,
        [ LogEvent (log ti) DebugLevel "api request"
            (fields [zap_String "client_ip" "203.0.113.5"]);
          EmitAPIRequest padded (fields [zap_String "client_ip" "203.0.113.5"]) ])
  /\ record ti context_Background "/svc/Publish" None []
     = (Go.Returned tt,
        [ LogEvent (log ti) DebugLevel "api request" (fields []);
          EmitAPIRequest context_Background (fields []) ]).
Proof.
  intros ti proxied padded fields. split; [|split].
  - apply (proj1 (record_client_ip ti proxied "/svc/Publish" None []) []).
    reflexivity.
  - apply (proj1 (proj2 (proj2 (proj2 (record_client_ip ti padded
                                         "/svc/Publish" None []))))
             "  " "203.0.113.5" (String "009" " ") []);
      [reflexivity | reflexivity | reflexivity | reflexivity |].
    right. exists " 10.0.0.1". reflexivity.
  - apply (proj2 (proj2 (proj2 (proj2 (record_client_ip ti context_Background
                                         "/svc/Publish" None []))))).
    left. reflexivity.
Defined.

(** ** The server *)

Ltac run_server :=
  unfold New, startGRPC, startHTTP, dialGRPC, go, GoPanicWrap, on_server,
    on_world, Go.gets, Go.modify, mbind, mret, Go.M_bind, Go.M_ret, Go.bind,
    Go.ret in *;
  simpl in *.

Section ChainFacts.

(** C7.  Once the gRPC listener is bound, [startGRPC] builds the gRPC
    server with the same chain for unary and for streaming calls: the
    metrics interceptor first, the telemetry interceptor second, and the
    authorizer last, which is in the chain exactly when authentication is
    enabled in the configuration. *)
Theorem interceptor_chain_order (env : Env) (s : Server) (w : World) :
  net_Listen env GRPC = None ->
  exists g : GrpcServer,
    grpcServer (snd (snd (startGRPC env (s, w)))) = Some g
    /\ UnaryInterceptors g = expected_chain (config s)
    /\ StreamInterceptors g = expected_chain (config s)
    /\ (AuthorizerEntry ∈ UnaryInterceptors g <-> Enable (Authn (config s)) = true)
    /\ (AuthorizerEntry ∈ StreamInterceptors g <-> Enable (Authn (config s)) = true).
Proof.
  intros Hlisten. unfold expected_chain. run_server. rewrite Hlisten. simpl.
  assert (Hin : forall b : bool,
    AuthorizerEntry ∈
      [PrometheusInterceptor;
       TelemetryEntry (NewTelemetryInterceptor (Log (config s)))]
      ++ (if b then [AuthorizerEntry] else []) <-> b = true).
  { intros []; simpl; rewrite !elem_of_cons, ?elem_of_nil;
      intuition congruence. }
  destruct (Enable (Authn (config s))) eqn:Hauth; simpl;
    destruct (messagev1_NewService env); simpl;
    try (destruct (mls_enabled (config s)); simpl;
         try (destruct (messagev3_NewService env); simpl));
    eexists; (split; [reflexivity|]); simpl;
    (split; [reflexivity|]); (split; [reflexivity|]);
    first [ split; apply (Hin true) | split; apply (Hin false) ].
Qed.
End ChainFacts.

Lemma interceptor_chain_order_witness :
  let s := {| config := config_with true false; grpcListener := None;
              httpListener := None; messagev1 := None; messagev3 := None;
              ctx := context_Background; authorizer := false |} in
  exists g : GrpcServer,
    grpcServer (snd (snd (startGRPC env_ok (s, World_empty)))) = Some g
    /\ UnaryInterceptors g = expected_chain (config s)
    /\ StreamInterceptors g = expected_chain (config s)
    /\ (AuthorizerEntry ∈ UnaryInterceptors g <-> Enable (Authn (config s)) = true)
    /\ (AuthorizerEntry ∈ StreamInterceptors g <-> Enable (Authn (config s)) = true).
Proof.
  intros s. apply (interceptor_chain_order env_ok s World_empty). reflexivity.
Defined.

Section NewFacts.
Import Go.

Lemma elem_of_snoc_effects (e e' : Effect) (es : list Effect) :
  e ∈ es ++ [e'] <-> e ∈ es \/ e = e'.
Proof. rewrite elem_of_app, elem_of_cons, elem_of_nil. tauto. Qed.

(** [New] opens listeners and never closes one. *)
Lemma New_never_closes (env : Env) (config : Config) (w : World) (l : Transport) :
  ListenerClosed l ∈ effects (snd (New env config w)) ->
  ListenerClosed l ∈ effects w.
Proof.
  run_server.
  repeat (case_match; simpl in *; simplify_eq; simpl in *; try done);
    rewrite ?elem_of_snoc_effects; intuition discriminate.
Qed.

Local Ltac failed_after_bind :=
  eexists _, _; (split; [reflexivity|]); simpl;
  (split; [reflexivity|]); (split; [reflexivity|]);
  (split; [intros l; rewrite ?elem_of_snoc_effects; intuition discriminate|]);
  intros; simplify_eq;
  (split; [reflexivity | rewrite ?elem_of_app, ?elem_of_cons; auto]).

(** C3, as the code has it.  When binding the gRPC listener fails, [New]
    returns the wrapped error and no server, and leaves the world as it
    was: nothing was opened and the HTTP gateway was not started.  When the
    gRPC listener was bound and binding the HTTP listener fails, [New]
    returns an error and no server, the HTTP listener is not opened, and
    the gRPC listener stays open: [New] closes no listener.  If no earlier
    step failed, that error is the wrapped bind error and the gRPC serve
    loop is still running. *)
Theorem New_bind_failure (env : Env) (config : Config) (w : World) :
  validate env config = None ->
  (forall e : error,
      net_Listen env GRPC = Some e ->
      New env config w
      = (Returned (None, Some (Wrap e "creating grpc listener")), w))
  /\ (net_Listen env GRPC = None ->
      forall e : error,
        net_Listen env HTTPGateway = Some e ->
        exists (err : error) (w' : World),
          New env config w = (Returned (None, Some err), w')
          /\ listeners w' GRPC = Listening
          /\ listeners w' HTTPGateway = listeners w HTTPGateway
          /\ (forall l, ListenerClosed l ∈ effects w' ->
                         ListenerClosed l ∈ effects w)
          /\ (messagev1_NewService env = None ->
              messagev3_NewService env = None ->
              grpc_DialContext env = None ->
              RegisterMessageApiHandler env = None ->
              RegisterMlsApiHandler env = None ->
              err = Wrap e "creating grpc-gateway listener"
              /\ serve_task GRPC "grpc" true ∈ tasks w')).
Proof.
  intros Hvalid. split.
  - intros e Hgrpc. run_server. by rewrite Hvalid, Hgrpc.
  - intros Hgrpc e Hhttp. run_server. rewrite Hvalid, Hgrpc, Hhttp. simpl.
    repeat (case_match; simpl in *; simplify_eq; simpl in * );
      failed_after_bind.
Qed.
End NewFacts.

(** C3, as the specification states it, fails: with the gRPC listener bound
    and the HTTP bind refused, [New] returns the error and the gRPC listener
    is still open. *)
Lemma New_leaves_grpc_listener_open :
  let run := New env_http_bind_fails (config_with false false) World_empty in
  fst run
  = Go.Returned
      (None,
       Some (Go.Wrap (Go.NewError "bind: address already in use" None)
                     "creating grpc-gateway listener"))
  /\ ~ no_listener_open (snd run)
  /\ ListenerClosed GRPC ∉ effects (snd run).
Proof.
  split; [reflexivity|]. split.
  - intros Hnone. by apply (Hnone GRPC).
  - intros Hclosed. apply New_never_closes in Hclosed.
    by apply elem_of_nil in Hclosed.
Qed.

Lemma New_bind_failure_witness :
  let run := New env_http_bind_fails (config_with false false) World_empty in
  exists (err : Go.error) (w' : World),
    run = (Go.Returned (None, Some err), w')
    /\ listeners w' GRPC = Listening
    /\ listeners w' HTTPGateway = Unbound.
Proof.
  intros run.
  destruct (proj2 (New_bind_failure env_http_bind_fails
                     (config_with false false) World_empty eq_refl)
              eq_refl (Go.NewError "bind: address already in use" None) eq_refl)
    as (err & w' & HNew & Hgrpc & Hhttp & _).
  exists err, w'. split; [exact HNew|]. split; [exact Hgrpc | exact Hhttp].
Defined.

Section CloseFacts.
Import Go.

Lemma counted_exit_task (w : World) (ts : list Task) :
  (length (List.filter counted (map (exit_task w) ts))
   + length (List.filter (fun t => may_exit w t && joined t) ts))%nat
  = length (List.filter counted ts).
Proof.
  induction ts as [|t ts IH]; [done|]. simpl.
  assert (Hrun : may_exit w t = true -> taskRunning t = true).
  { unfold may_exit. by destruct (taskRunning t). }
  unfold exit_task at 1 2. destruct (may_exit w t) eqn:Hexit; simpl.
  - assert (Hc : counted t = joined t).
    { unfold counted. by rewrite (Hrun eq_refl). }
    rewrite Hc. destruct (joined t); simpl; lia.
  - destruct (counted t); simpl; lia.
Qed.

(** Goroutines that end keep the counter of the wait group right. *)
Lemma run_goroutines_wg_counts (w : World) :
  wg_counts w -> wg_counts (run_goroutines w).
Proof.
  unfold wg_counts, run_goroutines. simpl. intros ->.
  pose proof (counted_exit_task w (tasks w)). lia.
Qed.

(** [wg.Wait()] returns as soon as every goroutine it counts can end, and
    then none of the goroutines registered with it is running. *)
Lemma WaitGroup_Wait_returns (w : World) :
  wg_counts w ->
  (forall t : Task, t ∈ tasks w -> counted t = true -> may_exit w t = true) ->
  exists w' : World,
    WaitGroup_Wait w = Some w'
    /\ wg w' = 0%nat
    /\ forall t : Task, t ∈ tasks w' -> joined t = true -> taskRunning t = false.
Proof.
  intros Hwg Hexit. unfold WaitGroup_Wait.
  assert (Hzero : wg (run_goroutines w) = 0%nat).
  { unfold run_goroutines. simpl. rewrite Hwg.
    replace (List.filter (fun t => may_exit w t && joined t) (tasks w))
      with (List.filter counted (tasks w)); [lia|].
    apply List.filter_ext_in. intros t Ht%list_elem_of_In.
    specialize (Hexit t Ht). unfold counted, may_exit in *.
    destruct (taskRunning t), (joined t); simpl in *;
      rewrite ?andb_false_r; try done.
    by rewrite (Hexit eq_refl). }
  rewrite Hzero. simpl. eexists. split; [reflexivity|]. split; [exact Hzero|].
  simpl. intros t' [t [-> Ht]]%list_elem_of_fmap Hjoin.
  specialize (Hexit t Ht). unfold exit_task in *.
  destruct (may_exit w t) eqn:Hme; simpl in *; [done|].
  unfold counted in Hexit. rewrite Hjoin in Hexit.
  destruct (taskRunning t); [|done]. by specialize (Hexit eq_refl).
Qed.

(** [Close] adds its effects in the order of its statements: the log
    line, the message service, the HTTP listener, the gRPC listener, the
    wait, the log line.  A failing listener close is logged and nothing
    else. *)
Lemma Close_order (env : Env) (s : Server) (w w2 : World) :
  Close env s w = Some w2 ->
  effects w2
  = effects w
    ++ [Logged InfoLevel "closing" None]
    ++ match messagev1 s with Some svc => [ServiceClosed svc] | None => [] end
    ++ close_effects env "closing http listener" (httpListener s)
    ++ close_effects env "closing grpc listener" (grpcListener s)
    ++ [Waited; Logged InfoLevel "closed" None].
Proof.
  unfold Close, close_listener, close_effects, WaitGroup_Wait, run_goroutines.
  intros HClose. apply bind_Some in HClose as (w' & Hwait & [= <-]).
  case_match; [|done]. injection Hwait as <-. simpl.
  destruct (messagev1 s), (httpListener s) as [lh|], (grpcListener s) as [lg|];
    simpl;
    try destruct (Listener_Close env lh); try destruct (Listener_Close env lg);
    simpl; rewrite <- ?app_assoc; reflexivity.
Qed.

(** C1, as the code has it.  A server that [New] has built runs the two
    serve loops, each started by [tracing.GoPanicWrap] and so counted by
    the wait group, and, when authentication is enabled, the janitor of
    the rate limiter, started by a bare [go] statement and not counted.
    [Close] returns; when it has, the wait group counter is zero and the
    two serve loops have ended.  [Close] neither stops nor awaits the
    janitor. *)
Theorem Close_joins_serve_loops
    (env : Env) (config : Config) (w : World) (s : Server) (w1 : World) :
  tasks w = [] ->
  wg w = 0%nat ->
  New env config w = (Returned (Some s, None), w1) ->
  let janitor := if Enable (Authn config) then [janitor_task] else [] in
  tasks w1
  = janitor ++ [serve_task GRPC "grpc" true; serve_task HTTPGateway "http" true]
  /\ wg w1 = 2%nat
  /\ exists w2 : World,
      Close env s w1 = Some w2
      /\ wg w2 = 0%nat
      /\ tasks w2
         = janitor ++ [serve_task GRPC "grpc" false;
                       serve_task HTTPGateway "http" false].
Proof.
  destruct w as [ls ts n g es]; simpl. intros -> -> HNew.
  revert HNew. run_server.
  repeat (case_match; simpl in *; simplify_eq; simpl in * ); intros; simplify_eq.
  all: (split; [reflexivity|]); (split; [reflexivity|]).
  all: unfold Close, close_listener; simpl;
    destruct (Listener_Close env HTTPGateway), (Listener_Close env GRPC);
    vm_compute; eexists; (split; [reflexivity|]); split; reflexivity.
Qed.
End CloseFacts.

(** C1, as the specification states it, fails: with authentication enabled
    the janitor is started by a bare [go] statement, outside the span wrapper
    and the wait group, and it is still running when [Close] has returned
    with the wait group counter at zero. *)
Lemma janitor_outside_wrapper_and_joiner :
  exists (s : Server) (w1 w2 : World),
    New env_ok (config_with true false) World_empty
    = (Go.Returned (Some s, None), w1)
    /\ ~ every_task_wrapped_and_joined w1
    /\ Close env_ok s w1 = Some w2
    /\ wg w2 = 0%nat
    /\ ~ no_task_running w2.
Proof.
  eexists _, _, _. split; [reflexivity|]. split; [|split; [reflexivity|split]].
  - intros Hall. destruct (Hall janitor_task) as [name Hname].
    + apply list_elem_of_here.
    + discriminate.
  - reflexivity.
  - intros Hnone. specialize (Hnone janitor_task). simpl in Hnone.
    discriminate Hnone. apply list_elem_of_here.
Qed.

Lemma Close_joins_serve_loops_witness :
  exists (s : Server) (w1 w2 : World),
    New env_ok (config_with true false) World_empty
    = (Go.Returned (Some s, None), w1)
    /\ tasks w1 = [janitor_task; serve_task GRPC "grpc" true;
                   serve_task HTTPGateway "http" true]
    /\ Close env_ok s w1 = Some w2
    /\ wg w2 = 0%nat
    /\ tasks w2 = [janitor_task; serve_task GRPC "grpc" false;
                   serve_task HTTPGateway "http" false].
Proof.
  eexists _, _. 
  destruct (Close_joins_serve_loops env_ok (config_with true false)
              World_empty _ _ eq_refl eq_refl eq_refl)
    as (Htasks & _ & w2 & HClose & Hwg & Htasks2).
  exists w2. split; [reflexivity|]. split; [exact Htasks|].
  split; [exact HClose|]. split; [exact Hwg | exact Htasks2].
Defined.

(** C4 at a server with the MLS service enabled: [New] creates and
    registers both message services, and [Close] closes the first one, the
    HTTP listener and the gRPC listener, in this order, waits, and returns.
    It never closes the MLS service. *)
Lemma Close_leaves_messagev3_open :
  exists (s : Server) (w1 w2 : World) (g : GrpcServer),
    New env_ok (config_with false true) World_empty
    = (Go.Returned (Some s, None), w1)
    /\ messagev1 s = Some MessageV1
    /\ messagev3 s = Some MessageV3
    /\ grpcServer w1 = Some g
    /\ Registered g = [MessageV1; MessageV3]
    /\ Close env_ok s w1 = Some w2
    /\ effects w2
       = effects w1
         ++ [ Logged InfoLevel "closing" None;
              ServiceClosed MessageV1;
              ListenerClosed HTTPGateway;
              ListenerClosed GRPC;
              Waited;
              Logged InfoLevel "closed" None ]
    /\ ServiceClosed MessageV3 ∉ effects w2.
Proof.
  eexists _, _, _, _. repeat (split; [reflexivity|]).
  simpl. rewrite !elem_of_cons, elem_of_nil. intuition discriminate.
Qed.

(** * Further properties *)

(** ** The method name, again *)

Section SplitFacts.
Import Strings.

(** Where [Index] finds a byte, the string splits there, and the byte does
    not occur before. *)
Lemma Index_byte_found (c : ascii) (s : string) :
  0 <= Index s (String c EmptyString) ->
  let i := Z.to_nat (Index s (String c EmptyString)) in
  s = slice_to s i +:+ String c (slice_from s (S i))
  /\ has_byte c (slice_to s i) = false.
Proof.
  induction s as [|c' s IH]; [simpl; lia|].
  cbn [Index HasPrefix]. destruct (Ascii.eqb_spec c c') as [->|Hne].
  - rewrite HasPrefix_empty. simpl. intros _. split; [|done].
    change (Z.to_nat 0) with 0%nat. by destruct s.
  - destruct (Z.ltb_spec (Index s (String c EmptyString)) 0) as [|Hge]; [lia|].
    intros _. specialize (IH Hge).
    replace (Z.to_nat (Index s (String c EmptyString) + 1))
      with (S (Z.to_nat (Index s (String c EmptyString)))) by lia.
    cbn zeta in *. destruct IH as [Hs Hno]. simpl. split.
    + exact (f_equal (String c') Hs).
    + rewrite Hno, orb_false_r. apply Ascii.eqb_neq. congruence.
Qed.

Lemma Index_byte_none (c : ascii) (s : string) :
  Index s (String c EmptyString) < 0 -> has_byte c s = false.
Proof.
  induction s as [|c' s IH]; [done|].
  cbn [Index HasPrefix]. destruct (Ascii.eqb_spec c c') as [->|Hne].
  - rewrite HasPrefix_empty. lia.
  - destruct (Z.ltb_spec (Index s (String c EmptyString)) 0) as [Hlt|]; [|lia].
    intros _. simpl. rewrite (IH Hlt), orb_false_r.
    apply Ascii.eqb_neq. congruence.
Qed.

(** X1.  What [splitMethodName] returns always accounts for its input:
    either the name, less one leading slash, holds no further slash and both
    components are ["unknown"], or the name is the service, a slash and the
    method.  In both cases the service holds no slash. *)
Theorem splitMethodName_decomposes (fullMethodName : string) :
  let name := TrimPrefix fullMethodName "/" in
  let '(service, method) := splitMethodName fullMethodName in
  (has_byte "/" name = false
   /\ service = "unknown" /\ method = "unknown"
   \/ name = service +:+ String "/" method)
  /\ has_byte "/" service = false.
Proof.
  intros name. unfold splitMethodName. fold name.
  destruct (Z.leb_spec 0 (Index name "/")) as [Hfound|Hnone].
  - destruct (Index_byte_found "/" name Hfound) as [Hname Hno].
    replace (Z.to_nat (Index name "/" + 1))
      with (S (Z.to_nat (Index name "/"))) by lia.
    split; [by right | exact Hno].
  - split; [|reflexivity]. left. by rewrite (Index_byte_none "/" name Hnone).
Qed.
End SplitFacts.

(** ** The serve loops *)

Section ServeFacts.
Import Go.

Lemma Index_app_found (a s sub : string) :
  0 <= Strings.Index s sub -> 0 <= Strings.Index (a +:+ s) sub.
Proof.
  intros Hs. induction a as [|c a IH]; [done|].
  change (String c a +:+ s) with (String c (a +:+ s)). cbn [Strings.Index].
  destruct (Strings.HasPrefix (String c (a +:+ s)) sub); [lia|].
  destruct (Z.ltb_spec (Strings.Index (a +:+ s) sub) 0); lia.
Qed.

(** X2.  Wrapping keeps the mark of a closed listener: when an error reads
    as a use of a closed network connection, so does [errors.Wrap] of it,
    under any message. *)
Theorem isErrUseOfClosedConnection_Wrap (err : error) (msg : string) :
  isErrUseOfClosedConnection err = true ->
  isErrUseOfClosedConnection (Wrap err msg) = true.
Proof.
  unfold isErrUseOfClosedConnection, strings_Contains.
  intros Herr%Z.leb_le. apply Z.leb_le. cbn [Error].
  by do 2 apply Index_app_found.
Qed.

Lemma serveGRPC_run (log : Logger) (addr : string)
    (Serve : M Trace (option error)) (t : Trace) :
  serveGRPC log addr Serve t
  = match Serve (t ++ [LogEvent log InfoLevel "serving grpc"
                         [zap_String "address" addr]]) with
    | (Returned (Some err), t') =>
        (Returned tt,
         if isErrUseOfClosedConnection err then t'
         else t' ++ [LogEvent log ErrorLevel "serving grpc" [zap_Error err]])
    | (Returned None, t') => (Returned tt, t')
    | (Panicked v, t') => (Panicked v, t')
    end.
Proof.
  unfold serveGRPC, emit, modify, mbind, M_bind, bind. simpl.
  destruct (Serve _) as [[[err|]|v] t']; try done.
  by destruct (isErrUseOfClosedConnection err).
Qed.

Lemma serveHTTP_run (log : Logger) (addr : string)
    (Serve : M Trace (option error)) (t : Trace) :
  serveHTTP log addr Serve t
  = match Serve (t ++ [LogEvent log InfoLevel "serving http"
                         [zap_String "address" addr]]) with
    | (Returned (Some err), t') =>
        (Returned tt,
         if bool_decide (err = http_ErrServerClosed)
            || isErrUseOfClosedConnection err then t'
         else t' ++ [LogEvent log ErrorLevel "serving http" [zap_Error err]])
    | (Returned None, t') => (Returned tt, t')
    | (Panicked v, t') => (Panicked v, t')
    end.
Proof.
  unfold serveHTTP, emit, modify, mbind, M_bind, bind. simpl.
  destruct (Serve _) as [[[err|]|v] t']; try done.
  by destruct (bool_decide _), (isErrUseOfClosedConnection err).
Qed.

Lemma error_logs_app (t t' : Trace) :
  error_logs (t ++ t') = (error_logs t + error_logs t')%nat.
Proof. unfold error_logs. by rewrite List.filter_app, length_app. Qed.

(** X3.  A serve loop whose [Serve] call ends because the listener was
    closed, the way [Close] ends it, logs no error, also when the error
    reaches it wrapped; the HTTP loop is silent about [http.ErrServerClosed]
    too.  Every other error a [Serve] call returns is logged once, at error
    level. *)
Theorem serve_loops_log_unexpected_errors_only
    (log : Logger) (addr : string) (Serve : M Trace (option error))
    (t t' : Trace) (err : error) :
  (Serve (t ++ [LogEvent log InfoLevel "serving grpc"
                  [zap_String "address" addr]]) = (Returned (Some err), t') ->
   let t2 := snd (serveGRPC log addr Serve t) in
   fst (serveGRPC log addr Serve t) = Returned tt
   /\ (isErrUseOfClosedConnection err = true -> t2 = t')
   /\ (isErrUseOfClosedConnection err = false ->
       t2 = t' ++ [LogEvent log ErrorLevel "serving grpc" [zap_Error err]]
       /\ error_logs t2 = S (error_logs t')))
  /\ (Serve (t ++ [LogEvent log InfoLevel "serving http"
                     [zap_String "address" addr]]) = (Returned (Some err), t') ->
      let t2 := snd (serveHTTP log addr Serve t) in
      fst (serveHTTP log addr Serve t) = Returned tt
      /\ (isErrUseOfClosedConnection err = true \/ err = http_ErrServerClosed ->
          t2 = t')
      /\ (isErrUseOfClosedConnection err = false ->
          Error err <> "http: Server closed" ->
          t2 = t' ++ [LogEvent log ErrorLevel "serving http" [zap_Error err]]
          /\ error_logs t2 = S (error_logs t'))).
Proof.
  split; intros HServe; cbn zeta.
  - rewrite serveGRPC_run, HServe. simpl. split; [done|]. split.
    + by intros ->.
    + intros ->. split; [done|]. rewrite error_logs_app.
      change (error_logs [_]) with 1%nat. lia.
  - rewrite serveHTTP_run, HServe. simpl. split; [done|]. split.
    + intros [-> | ->]; [by rewrite orb_true_r|].
      by rewrite bool_decide_eq_true_2.
    + intros -> Htext. rewrite bool_decide_eq_false_2.
      * simpl. split; [done|]. rewrite error_logs_app.
        change (error_logs [_]) with 1%nat. lia.
      * intros ->. by apply Htext.
Qed.
End ServeFacts.

Lemma isErrUseOfClosedConnection_Wrap_witness :
  isErrUseOfClosedConnection
    (Go.Wrap (Go.NewError "accept tcp [::]:5556: use of closed network connection" None)
             "serving grpc") = true.
Proof.
  apply (isErrUseOfClosedConnection_Wrap
           (Go.NewError "accept tcp [::]:5556: use of closed network connection" None)
           "serving grpc").
  reflexivity.
Defined.

Lemma serve_loops_log_unexpected_errors_only_witness :
  let log := {| LoggerName := "api" |} in
  let closed := Go.NewError "accept tcp [::]:5556: use of closed network connection" None in
  snd (serveGRPC log "[::]:5556" (mret (Some closed)) [])
  = [LogEvent log InfoLevel "serving grpc" [zap_String "address" "[::]:5556"]].
Proof.
  intros log closed.
  apply (proj1 (serve_loops_log_unexpected_errors_only log "[::]:5556"
                  (mret (Some closed)) []
                  [LogEvent log InfoLevel "serving grpc"
                     [zap_String "address" "[::]:5556"]] closed) eq_refl).
  reflexivity.
Defined.

(** ** Nested spans *)

Section NestedDoFacts.
Import Go Tracing.
Context {App : Type}.

(** X4.  [Do] composes.  With one [Do] inside another, the inner span is a
    child of the outer one and is finished first, then the outer one, each
    exactly once.  A panic of the action with an error value tags both
    spans with that error and leaves the outer [Do] unchanged; any other
    ending leaves both spans untagged. *)
Theorem Do_nested
    (ctx : Context) (outer inner : string)
    (action : Context -> M (Tracer * App) unit)
    (tr : Tracer) (app : App) :
  let span_o := {| SpanID := nextSpanID tr; SpanName := outer;
                   SpanParent := SpanID <$> ctxSpan ctx |} in
  let span_i := {| SpanID := S (nextSpanID tr); SpanName := inner;
                   SpanParent := Some (nextSpanID tr) |} in
  let ctx_i := {| ctxSpan := Some span_i; ctxMD := ctxMD ctx;
                  ctxRequester := ctxRequester ctx |} in
  let tr0 := {| nextSpanID := S (S (nextSpanID tr));
                started := (started tr ++ [span_o]) ++ [span_i];
                finished := finished tr |} in
  forall (o : outcome unit) (tr1 : Tracer) (app1 : App),
    action ctx_i (tr0, app) = (o, (tr1, app1)) ->
    let tag := match o with
               | Panicked (AnyError e) => Some e
               | _ => None
               end in
    Do ctx outer (fun ctx => Do ctx inner action) (tr, app)
    = (o, ({| nextSpanID := nextSpanID tr1; started := started tr1;
              finished := (finished tr1 ++ [(span_i, tag)]) ++ [(span_o, tag)] |},
           app1)).
Proof.
  intros span_o span_i ctx_i tr0 o tr1 app1 Hact tag.
  unfold Do, mbind, M_bind, bind, StartSpanFromContext, defer_recover. simpl.
  fold span_o. fold span_i. fold ctx_i. fold tr0. rewrite Hact.
  destruct o as [[]|[e|s|n]]; reflexivity.
Qed.
End NestedDoFacts.

Lemma Do_nested_witness :
  let boom := Go.NewError "boom" None in
  let grpc := {| SpanID := 0; SpanName := "grpc"; SpanParent := None |} in
  let call := {| SpanID := 1; SpanName := "call"; SpanParent := Some 0%nat |} in
  Tracing.Do context_Background "grpc"
    (fun ctx => Tracing.Do ctx "call" (fun _ => Go.panic (Go.AnyError boom)))
    (Tracing.Tracer_empty, tt)
  = (Go.Panicked (Go.AnyError boom),
     ({| Tracing.nextSpanID := 2; Tracing.started := [grpc; call];
         Tracing.finished := [(call, Some boom); (grpc, Some boom)] |}, tt)).
Proof.
  intros boom grpc call.
  apply (Do_nested context_Background "grpc" "call"
           (fun _ => Go.panic (Go.AnyError boom)) Tracing.Tracer_empty tt
           (Go.Panicked (Go.AnyError boom))
           {| Tracing.nextSpanID := 2; Tracing.started := [grpc; call];
              Tracing.finished := [] |} tt).
  reflexivity.
Defined.

(** ** The telemetry recorder, again *)

Section RecordFacts.
Import Go.

(** X5.  [record] never panics.  It writes one log line and one metrics
    emission with the same fields: the service and the method first, then
    the requester fields.  The line is at info level when the call failed
    and at debug level when it did not. *)
Theorem record_feeds_both_sinks (ti : TelemetryInterceptor) (ctx : Context)
    (fullMethod : string) (err : option error) (t : Trace) :
  exists rest : list Field,
    let fields :=
      [ zap_String "service" (fst (splitMethodName fullMethod));
        zap_String "method" (snd (splitMethodName fullMethod)) ]
      ++ ctxRequester ctx ++ rest in
    record ti ctx fullMethod err t
    = (Returned tt,
       t ++ [ LogEvent (log ti)
                (match err with Some _ => InfoLevel | None => DebugLevel end)
                "api request" fields;
              EmitAPIRequest ctx fields ]).
Proof.
  exists (client_ip_fields ctx ++ error_fields err).
  rewrite record_effect. reflexivity.
Qed.

(** X6.  A unary call that fails is recorded with its error: the record is
    at info level and ends with the error, the name of its status code and
    its status message.  For an error that carries a status itself these are
    the code and the message of that status.  For an error with no status
    anywhere in its chain of causes, wrapped or not, they are ["Unknown"]
    and the text of the error.  (A wrapper around an error that carries a
    status is not covered: what [status.FromError] answers for it depends
    on the release of the gRPC library.) *)
Theorem Unary_records_status_of_error
    (ti : TelemetryInterceptor) (ctx : Context) (req res : any)
    (info : ServerInfo) (handler : UnaryHandler) (t t' : Trace) (err : error) :
  handler ctx req t = (Returned (res, Some err), t') ->
  let recorded_with (code : Code) (message : string) : Prop :=
    exists before : list Field,
      let fields :=
        before
        ++ [ zap_Error err;
             zap_String "error_code" (Code_String code);
             zap_String "error_message" message ] in
      TelemetryInterceptor_Unary ti ctx req info handler t
      = (Returned (res, Some err),
         t' ++ [ LogEvent (log ti) InfoLevel "api request" fields;
                 EmitAPIRequest ctx fields ]) in
  (forall (msg : string) (st : Status),
      err = NewError msg (Some st) ->
      recorded_with (StatusCode st) (StatusMessage st))
  /\ (carries_status err = false -> recorded_with Unknown (Error err)).
Proof.
  intros Hh recorded_with.
  assert (Hrec : forall code message,
             status_FromError err
             = Some {| StatusCode := code; StatusMessage := message |} ->
             recorded_with code message).
  { intros code message Hfrom.
    exists ([ zap_String "service" (fst (splitMethodName (FullMethod info)));
              zap_String "method" (snd (splitMethodName (FullMethod info))) ]
            ++ ctxRequester ctx ++ client_ip_fields ctx).
    rewrite Unary_run, Hh. unfold record_events, error_fields. cbn zeta.
    rewrite Hfrom. by rewrite <- !app_assoc. }
  split.
  - intros msg [code message] ->. by apply Hrec.
  - intros Hnone. apply Hrec.
    by destruct err as [msg [st|] | cause msg].
Qed.

(** X7.  In the chain [startGRPC] builds, the metrics interceptor is handed
    the telemetry interceptor as its handler, and the telemetry interceptor
    is handed the authorizer, when authentication is enabled, or else the
    handler of the call.  So a call the authorizer turns down without
    running the handler still gets its telemetry record, with the
    authorizer's error, and the handler has no part in the outcome. *)
Theorem rejected_call_is_recorded
    (prometheus authorizer : UnaryServerInterceptor)
    (c : Config) (info : ServerInfo) :
  let ti := NewTelemetryInterceptor (Log c) in
  let guarded (handler : UnaryHandler) : UnaryHandler :=
    if Enable (Authn c)
    then fun ctx req => authorizer ctx req info handler
    else handler in
  (forall (ctx : Context) (req : any) (handler : UnaryHandler),
      ChainUnaryServer
        (map (unary_interceptor prometheus authorizer) (expected_chain c))
        ctx req info handler
      = prometheus ctx req info
          (fun ctx req =>
             TelemetryInterceptor_Unary ti ctx req info (guarded handler)))
  /\ (Enable (Authn c) = true ->
      forall (ctx : Context) (req res : any) (e : error) (t t' : Trace),
        (forall handler, authorizer ctx req info handler t
                         = (Returned (res, Some e), t')) ->
        forall handler : UnaryHandler,
          TelemetryInterceptor_Unary ti ctx req info (guarded handler) t
          = (Returned (res, Some e),
             t' ++ record_events ti ctx (FullMethod info) InfoLevel
                     (client_ip_fields ctx) (Some e))).
Proof.
  intros ti guarded. split.
  - intros ctx req handler. unfold expected_chain, guarded.
    by destruct (Enable (Authn c)).
  - intros Hauth ctx req res e t t' Hreject handler.
    rewrite Unary_run. unfold guarded. rewrite Hauth.
    by rewrite (Hreject handler).
Qed.
End RecordFacts.

Lemma Unary_records_status_of_error_witness :
  let ti := NewTelemetryInterceptor {| LoggerName := "api" |} in
  let info := {| FullMethod := "/svc/Publish" |} in
  let denied := Go.NewError "rpc error: code = PermissionDenied desc = no token"
                  (Some {| Go.StatusCode := Go.PermissionDenied;
                           Go.StatusMessage := "no token" |}) in
  let refused := Go.Wrap (Go.NewError "connection refused" None) "publishing" in
  let answer (err : Go.error) : UnaryHandler :=
    fun _ _ => mret (Go.AnyString "", Some err) in
  let ends_with (err : Go.error) (code message : string) :=
    exists before : list Field,
      TelemetryInterceptor_Unary ti context_Background (Go.AnyString "req")
        info (answer err) []
      = (Go.Returned (Go.AnyString "", Some err),
         [ LogEvent (log ti) InfoLevel "api request"
             (before ++ [ zap_Error err;
                          zap_String "error_code" code;
                          zap_String "error_message" message ]);
           EmitAPIRequest context_Background
             (before ++ [ zap_Error err;
                          zap_String "error_code" code;
                          zap_String "error_message" message ]) ]) in
  ends_with denied "PermissionDenied" "no token"
  /\ ends_with refused "Unknown" "publishing: connection refused".
Proof.
  intros ti info denied refused answer ends_with. split.
  - apply (proj1 (Unary_records_status_of_error ti context_Background
                    (Go.AnyString "req") (Go.AnyString "") info (answer denied)
                    [] [] denied eq_refl)
             "rpc error: code = PermissionDenied desc = no token"
             {| Go.StatusCode := Go.PermissionDenied;
                Go.StatusMessage := "no token" |}).
    reflexivity.
  - apply (proj2 (Unary_records_status_of_error ti context_Background
                    (Go.AnyString "req") (Go.AnyString "") info (answer refused)
                    [] [] refused eq_refl)).
    reflexivity.
Defined.

Lemma rejected_call_is_recorded_witness :
  let c := config_with true false in
  let info := {| FullMethod := "/svc/Publish" |} in
  let denied := Go.NewError "permission denied"
                  (Some {| Go.StatusCode := Go.PermissionDenied;
                           Go.StatusMessage := "permission denied" |}) in
  let authorizer : UnaryServerInterceptor :=
    fun _ _ _ _ => mret (Go.AnyString "", Some denied) in
  let handler : UnaryHandler :=
    fun _ _ => emit (OtherEffect "published");; mret (Go.AnyString "ok", None) in
  TelemetryInterceptor_Unary (NewTelemetryInterceptor (Log c))
    context_Background (Go.AnyString "req") info
    (fun ctx req => authorizer ctx req info handler) []
  = (Go.Returned (Go.AnyString "", Some denied),
     record_events (NewTelemetryInterceptor (Log c)) context_Background
       "/svc/Publish" InfoLevel [] (Some denied)).
Proof.
  intros c info denied authorizer handler.
  apply (proj2 (rejected_call_is_recorded authorizer authorizer c info)
           eq_refl context_Background (Go.AnyString "req") (Go.AnyString "")
           denied [] []).
  reflexivity.
Defined.

(** ** The CORS wrapper, again *)

Section CORSFrameFacts.
Import HTTP.

Lemma set_header_twice (w : ResponseWriter) (key value : string) :
  set_header (set_header w key value) key value = set_header w key value.
Proof.
  unfold set_header, Header_Set. simpl. by rewrite insert_insert_eq.
Qed.

(** X8.  A preflight answer touches nothing but the three CORS headers:
    the status and the body of the response stay as they were, and so does
    every other header.  A value under [Access-Control-Allow-Origin] that an
    earlier handler had set is replaced by the single value [*]. *)
Theorem preflight_changes_cors_headers_only
    (h : Handler) (w : ResponseWriter) (r : Request) :
  is_preflight r ->
  let w' := allowCORS h w r in
  RespStatus w' = RespStatus w
  /\ RespBody w' = RespBody w
  /\ RespHeader w' !! "Access-Control-Allow-Origin" = Some ["*"]
  /\ forall key : string,
      key <> "Access-Control-Allow-Origin" ->
      key <> "Access-Control-Allow-Headers" ->
      key <> "Access-Control-Allow-Methods" ->
      RespHeader w' !! key = RespHeader w !! key.
Proof.
  intros Hpre. cbn zeta.
  assert (Heq : allowCORS h w r
                = preflightHandler
                    (set_header w "Access-Control-Allow-Origin" "*") r).
  { unfold allowCORS. apply preflight_test in Hpre. by rewrite Hpre. }
  rewrite Heq. unfold preflightHandler, set_header, Header_Set. simpl.
  change (CanonicalMIMEHeaderKey "Access-Control-Allow-Origin")
    with "Access-Control-Allow-Origin".
  change (CanonicalMIMEHeaderKey "Access-Control-Allow-Headers")
    with "Access-Control-Allow-Headers".
  change (CanonicalMIMEHeaderKey "Access-Control-Allow-Methods")
    with "Access-Control-Allow-Methods".
  repeat split.
  - rewrite !lookup_insert_ne by discriminate. apply lookup_insert_eq.
  - intros key Ho Hh Hm. by rewrite !lookup_insert_ne.
Qed.

(** X9.  Wrapping a handler twice is the same as wrapping it once. *)
Theorem allowCORS_twice (h : Handler) (w : ResponseWriter) (r : Request) :
  allowCORS (allowCORS h) w r = allowCORS h w r.
Proof.
  unfold allowCORS. destruct (_ && _) eqn:Htest; [done|].
  by rewrite set_header_twice.
Qed.
End CORSFrameFacts.

Lemma preflight_changes_cors_headers_only_witness :
  let r := {| HTTP.Method := "OPTIONS"; HTTP.URLPath := "/";
              HTTP.ReqHeader := {[ "Access-Control-Request-Method" := ["POST"] ]} |} in
  let w := {| HTTP.RespHeader := {[ "Access-Control-Allow-Origin" := ["https://xmtp.chat"];
                                    "Vary" := ["Origin"] ]};
              HTTP.RespStatus := None; HTTP.RespBody := "" |} in
  let w' := allowCORS (fun w _ => w) w r in
  HTTP.RespHeader w' !! "Access-Control-Allow-Origin" = Some ["*"]
  /\ HTTP.RespHeader w' !! "Vary" = Some ["Origin"].
Proof.
  intros r w w'.
  destruct (preflight_changes_cors_headers_only (fun w _ => w) w r)
    as (_ & _ & Horigin & Hother).
  - split; [reflexivity | vm_compute; discriminate].
  - split; [exact Horigin|].
    etransitivity; [apply (Hother "Vary"); discriminate | reflexivity].
Defined.

(** ** The server, again *)

Arguments mls_enabled : simpl never.

Section NewStateFacts.
Import Go.

(** X10.  [New] never panics and returns either a server or an error, not
    both and not neither.  It returns a server exactly when every step
    succeeds: validation, the gRPC listener, the message service, the dial
    back to the gRPC listener, the gateway handlers and the HTTP listener.
    The two steps for the MLS service count only when a store is given and
    MLS is enabled; otherwise they are not taken. *)
Theorem New_succeeds_iff_all_steps_do (env : Env) (config : Config) (w : World) :
  exists w' : World,
    (all_steps_succeed env config
     /\ exists s : Server, New env config w = (Returned (Some s, None), w'))
    \/ (~ all_steps_succeed env config
        /\ exists err : error, New env config w = (Returned (None, Some err), w')).
Proof.
  unfold all_steps_succeed. run_server.
  repeat (case_match; simpl in *; simplify_eq; simpl in * );
    eexists;
    first [ left; split; [intuition congruence | eexists; reflexivity]
          | right; split; [intuition congruence | eexists; reflexivity] ].
Qed.

(** X11.  What a successful [New] leaves behind.  The server holds both
    listeners and the message service, the MLS service exactly when it is
    enabled, and the authorizer exactly when authentication is.  Both
    listeners are open.  The gRPC server has the services of the
    configuration registered, in order, and takes messages up to the
    configured size.  The steps were taken in this order: bind gRPC, create
    the services, dial the gRPC listener, bind HTTP. *)
Theorem New_success_state
    (env : Env) (config : Config) (w : World) (s : Server) (w' : World) :
  New env config w = (Returned (Some s, None), w') ->
  server_fields s config
  /\ listeners w' GRPC = Listening
  /\ listeners w' HTTPGateway = Listening
  /\ (exists g : GrpcServer,
        grpcServer w' = Some g
        /\ Registered g = services_of config
        /\ MaxRecvMsgSize g = MaxMsgSize (ConfigOptions config)
        /\ HealthRegistered g = true)
  /\ effects w'
     = effects w
       ++ [Bound GRPC] ++ map ServiceCreated (services_of config)
       ++ [Dialed; Bound HTTPGateway].
Proof.
  unfold server_fields, services_of. run_server. intros HNew.
  repeat (case_match; simpl in *; simplify_eq; simpl in * ).
  all: rewrite <- ?app_assoc; simpl.
  all: repeat split; eauto 10.
Qed.
End NewStateFacts.

Section CloseAgainFacts.

Lemma close_listener_tasks env l what w :
  tasks (close_listener env l what w) = tasks w
  /\ wg (close_listener env l what w) = wg w.
Proof. unfold close_listener. by destruct (Listener_Close env l). Qed.

Lemma close_listener_listeners env l what w l' :
  listeners (close_listener env l what w) l'
  = if decide (l' = l) then Closed else listeners w l'.
Proof. unfold close_listener. by destruct (Listener_Close env l). Qed.

Lemma WaitGroup_Wait_listeners (w w' : World) :
  WaitGroup_Wait w = Some w' -> listeners w' = listeners w.
Proof.
  unfold WaitGroup_Wait. case_match; [|done]. by intros [= <-].
Qed.

(** The world [Close] waits in: the listeners the server holds are closed,
    the others, the goroutines and the wait group are as before. *)
Lemma Close_waits_in (env : Env) (s : Server) (w : World) :
  exists w3 : World,
    Close env s w
    = (w4 ← WaitGroup_Wait w3; Some (effect (Logged InfoLevel "closed" None) w4))
    /\ tasks w3 = tasks w
    /\ wg w3 = wg w
    /\ forall l, listeners w3 l
                 = if bool_decide (holds s l) then Closed else listeners w l.
Proof.
  unfold Close, holds. eexists. split; [reflexivity|].
  destruct (messagev1 s), (httpListener s) as [lh|], (grpcListener s) as [lg|];
    simpl; rewrite ?(proj1 (close_listener_tasks _ _ _ _)),
             ?(proj2 (close_listener_tasks _ _ _ _)); simpl;
    rewrite ?(proj1 (close_listener_tasks _ _ _ _)),
            ?(proj2 (close_listener_tasks _ _ _ _)); simpl;
    (split; [done|]); (split; [done|]); intros l;
    rewrite ?close_listener_listeners; simpl;
    rewrite ?close_listener_listeners; simpl;
    repeat case_decide; repeat case_bool_decide; subst;
    intuition congruence.
Qed.

(** X12.  [Close] returns whenever the wait group counts nothing but serve
    loops on listeners that the server holds or that are no longer open: the
    state after [New], but also a server that holds nothing, and a server
    closed before.  Afterwards the counter is zero, no goroutine registered
    with the wait group is running, the listeners the server holds are
    closed, and the others are as they were. *)
Theorem Close_returns (env : Env) (s : Server) (w : World) :
  wg_counts w ->
  (forall t : Task,
      t ∈ tasks w -> counted t = true ->
      exists l, taskBody t = Serve l
                /\ (holds s l \/ listeners w l <> Listening)) ->
  exists w' : World,
    Close env s w = Some w'
    /\ wg w' = 0%nat
    /\ (forall t : Task, t ∈ tasks w' -> joined t = true -> taskRunning t = false)
    /\ (forall l, holds s l -> listeners w' l = Closed)
    /\ (forall l, ~ holds s l -> listeners w' l = listeners w l).
Proof.
  intros Hwg Hserve.
  destruct (Close_waits_in env s w) as (w3 & HClose & Htasks & Hcount & Hlis).
  destruct (WaitGroup_Wait_returns w3) as (w4 & HWait & Hzero & Hjoined).
  - unfold wg_counts in *. by rewrite Htasks, Hcount.
  - rewrite Htasks. intros t Ht Hc.
    destruct (Hserve t Ht Hc) as (l & Hbody & Hl).
    unfold counted in Hc. apply andb_true_iff in Hc as [Hrun _].
    unfold may_exit. rewrite Hrun, Hbody, Hlis. simpl.
    destruct Hl as [Hheld|Hshut];
      [rewrite (bool_decide_eq_true_2 _ Hheld)
      |destruct (bool_decide (holds s l))];
      by rewrite bool_decide_eq_false_2.
  - exists (effect (Logged InfoLevel "closed" None) w4).
    rewrite HClose, HWait. simpl. split; [done|]. split; [done|].
    split; [exact Hjoined|].
    rewrite (WaitGroup_Wait_listeners _ _ HWait).
    split; intros l Hl; rewrite Hlis;
      [by rewrite bool_decide_eq_true_2 | by rewrite bool_decide_eq_false_2].
Qed.
End CloseAgainFacts.

Lemma Close_returns_witness :
  exists (s : Server) (w : World),
    New env_ok (config_with true true) World_empty
    = (Go.Returned (Some s, None), w)
    /\ holds s GRPC /\ holds s HTTPGateway
    /\ tasks w = [janitor_task; serve_task GRPC "grpc" true;
                  serve_task HTTPGateway "http" true]
    /\ wg w = 2%nat
    /\ listeners w GRPC = Listening /\ listeners w HTTPGateway = Listening
    /\ exists w' : World,
         Close env_ok s w = Some w'
         /\ wg w' = 0%nat
         /\ (forall t : Task,
               t ∈ tasks w' -> joined t = true -> taskRunning t = false)
         /\ listeners w' GRPC = Closed /\ listeners w' HTTPGateway = Closed.
Proof.
  eexists _, _. split; [reflexivity|].
  split; [left; reflexivity|]. split; [right; reflexivity|].
  split; [reflexivity|]. split; [reflexivity|].
  split; [reflexivity|]. split; [reflexivity|].
  match goal with
  | |- exists w' : World, Close _ ?s ?w = _ /\ _ =>
      destruct (Close_returns env_ok s w)
        as (w' & HClose & Hwg & Hjoined & Hheld & _)
  end.
  - reflexivity.
  - intros t Ht Hc.
    change (t ∈ [janitor_task; serve_task GRPC "grpc" true;
                 serve_task HTTPGateway "http" true]) in Ht.
    apply elem_of_cons in Ht as [-> | Ht]; [discriminate Hc|].
    apply elem_of_cons in Ht as [-> | Ht];
      [exists GRPC; split; [reflexivity | left; left; reflexivity]|].
    apply elem_of_cons in Ht as [-> | Ht];
      [exists HTTPGateway; split; [reflexivity | left; right; reflexivity]|].
    by apply elem_of_nil in Ht.
  - exists w'. split; [exact HClose|]. split; [exact Hwg|].
    split; [exact Hjoined|].
    split; apply Hheld; [left | right]; reflexivity.
Defined.

(** ** The deploy trigger *)

Section DeployFacts.
Import Deploy.

Local Ltac run_main :=
  unfold main, Fatal, ready_to_deploy, deploy_message in *;
  repeat (case_match; simpl in *; simplify_eq; simpl in * ).

Lemma HasPrefix_nonempty (s : string) :
  Strings.HasPrefix s e2eRunnerImagePrefix = true -> s <> "".
Proof. by intros Hp ->. Qed.

(** X13.  [main] deploys nothing but an e2e runner image.  Whenever it
    calls [Deploy], the variable is [xmtpd_e2e_image], the value is the
    container image of the command line, that image starts with
    [xmtp/xmtpd-e2e@sha256:], and the logger, the option parser, the
    Terraform client and the deployer were all set up before.  It calls
    [Deploy] at most once. *)
Theorem main_deploys_e2e_image_only
    (env : Env) (options : Options) (variable value message : string) :
  DeployCall variable value message ∈ fst (main env options) ->
  variable = "xmtpd_e2e_image"
  /\ value = ContainerImage options
  /\ message = deploy_message env options
  /\ ready_to_deploy env options
  /\ length (List.filter is_DeployCall (fst (main env options))) = 1%nat.
Proof.
  run_main; rewrite ?elem_of_app, ?elem_of_cons, ?elem_of_nil;
    intros Hin; decompose [or] Hin; simplify_eq; try contradiction;
    match goal with
    | H : negb _ = false |- _ => apply negb_false_iff in H
    end;
    repeat split; done.
Qed.

(** X14.  A failing [git log] does not stop the deploy.  Once everything
    before is set up and the image is an e2e runner image, [main] calls
    [Deploy] with the output of [git log] as the message; when [git log]
    fails it logs that error and deploys all the same, with a message that
    names the commit given on the command line. *)
Theorem main_deploys_with_fallback_message (env : Env) (options : Options) :
  ready_to_deploy env options ->
  DeployCall "xmtpd_e2e_image" (ContainerImage options)
    (deploy_message env options) ∈ fst (main env options)
  /\ (forall out : string,
        git_log_Output env = inl out -> deploy_message env options = out)
  /\ (forall err : Go.error,
        git_log_Output env = inr err ->
        deploy_message env options
        = "triggered from commit " +:+ GitCommit options
        /\ LogError "getting git commit message" [zap_Error err]
           ∈ fst (main env options)).
Proof.
  intros (Hzap & Hparse & Hclient & Hdeployer & Himage).
  pose proof (HasPrefix_nonempty _ Himage) as Hne%String.eqb_neq.
  unfold main, Fatal, deploy_message.
  rewrite Hzap, Hparse, Hclient, Hdeployer, Hne, Himage. simpl.
  destruct (git_log_Output env) as [out|err]; simpl;
    destruct (Deploy env _ _ _); simpl;
    (split; [rewrite ?elem_of_app, ?elem_of_cons; tauto|]);
    (split; [intros ? [= <-] || intros ? [=]; done|]);
    intros ? Heq; simplify_eq;
    (split; [done|]); rewrite ?elem_of_app, ?elem_of_cons; tauto.
Qed.

Lemma not_snoc_nil {A} (before : list A) (x : A) : [] <> before ++ [x].
Proof. by destruct before. Qed.

Lemma snoc_inj {A} (l l' : list A) (x y : A) : l ++ [x] = l' ++ [y] -> x = y.
Proof. by intros [_ ?]%app_inj_tail. Qed.

Local Ltac exit_case :=
  let H := fresh "H" in
  intros H;
  first
    [ done
    | by repeat split
    | by eauto
    | by eexists _, _, []
    | by eexists _, _, [_]
    | by eexists _, _, [_; _]
    | by eexists _, _, [_; _; _; _]
    | by eexists _, _, [_; _; _; _; _]
    | by destruct H as [? ?]
    | by destruct H as (? & ? & ? & ?%not_snoc_nil)
    | by destruct H as (? & ? & ? & ?%(snoc_inj [_; _; _]))
    | by destruct H as (? & ? & ? & ?%(snoc_inj [_; _; _; _]))
    | decompose [and] H; simplify_eq; first [done | congruence | tauto] ].

Local Ltac fatal_case :=
  first
    [ by left
    | by right; left; eexists
    | right; right; split; [reflexivity|]; split; [reflexivity|];
      first
        [ by eexists _, _, []
        | by eexists _, _, [_]
        | by eexists _, _, [_; _]
        | by eexists _, _, [_; _; _; _]
        | by eexists _, _, [_; _; _; _; _] ] ].

(** X15.  How [main] ends.  It returns exactly when everything before the
    deploy went well and [Deploy] itself returned no error.  It panics
    exactly when the logger cannot be built.  In every other case it ends
    the process with status 1, and then the fatal log line is the last thing
    it did and the only fatal line of the run; a run that ends otherwise
    has no fatal line. *)
Theorem main_exit (env : Env) (options : Options) :
  let '(events, exit) := main env options in
  (exit = Returns <->
   ready_to_deploy env options
   /\ Deploy env "xmtpd_e2e_image" (ContainerImage options)
        (deploy_message env options) = None)
  /\ ((exists v, exit = Panics v) <-> zap_NewDevelopment env <> None)
  /\ (exit = Exits 1 <->
      exists msg fields before, events = before ++ [LogFatal msg fields])
  /\ (exit = Returns
      \/ (exists v, exit = Panics v)
      \/ (exit = Exits 1
          /\ fatal_lines events = 1%nat
          /\ exists msg fields before,
               events = before ++ [LogFatal msg fields]))
  /\ (exit <> Exits 1 -> fatal_lines events = 0%nat).
Proof.
  pose proof (HasPrefix_nonempty (ContainerImage options)) as Hne.
  unfold main, Fatal, ready_to_deploy, deploy_message in *.
  repeat (case_match; simpl in *; simplify_eq; simpl in * ).
  all: repeat match goal with
       | H : negb _ = true |- _ => apply negb_true_iff in H
       | H : negb _ = false |- _ => apply negb_false_iff in H
       | H : (_ =? _)%string = true |- _ => apply String.eqb_eq in H
       end.
  all: split; [split; exit_case|].
  all: split; [split; exit_case|].
  all: split; [split; exit_case|].
  all: split; [fatal_case | by intros ?].
Qed.
End DeployFacts.

Lemma main_deploys_e2e_image_only_witness :
  let env := {| Deploy.zap_NewDevelopment := None; Deploy.Parse := None;
                Deploy.tfe_NewClient := None;
                Deploy.terraform_NewDeployer := None;
                Deploy.git_log_Output := inl "0a1b2c3 Bump e2e image";
                Deploy.Deploy := fun _ _ _ => None |} in
  let options := {| Deploy.TFToken := "token"; Deploy.Workspace := "dev";
                    Deploy.Organization := "xmtp";
                    Deploy.ContainerImage := "xmtp/xmtpd-e2e@sha256:5d3f";
                    Deploy.GitCommit := "0a1b2c3" |} in
  Strings.HasPrefix (Deploy.ContainerImage options) Deploy.e2eRunnerImagePrefix
  = true.
Proof.
  intros env options.
  apply (main_deploys_e2e_image_only env options "xmtpd_e2e_image"
           "xmtp/xmtpd-e2e@sha256:5d3f" "0a1b2c3 Bump e2e image").
  apply list_elem_of_lookup. exists 3%nat. reflexivity.
Defined.

Lemma main_deploys_with_fallback_message_witness :
  let env := {| Deploy.zap_NewDevelopment := None; Deploy.Parse := None;
                Deploy.tfe_NewClient := None;
                Deploy.terraform_NewDeployer := None;
                Deploy.git_log_Output := inr (Go.NewError "exit status 128" None);
                Deploy.Deploy := fun _ _ _ => None |} in
  let options := {| Deploy.TFToken := "token"; Deploy.Workspace := "dev";
                    Deploy.Organization := "xmtp";
                    Deploy.ContainerImage := "xmtp/xmtpd-e2e@sha256:5d3f";
                    Deploy.GitCommit := "0a1b2c3" |} in
  Deploy.DeployCall "xmtpd_e2e_image" "xmtp/xmtpd-e2e@sha256:5d3f"
    "triggered from commit 0a1b2c3" ∈ fst (Deploy.main env options).
Proof.
  intros env options.
  apply (main_deploys_with_fallback_message env options).
  repeat split; reflexivity.
Defined.

Lemma main_exit_witness :
  let failed := Go.NewError "run errored" None in
  let env := {| Deploy.zap_NewDevelopment := None; Deploy.Parse := None;
                Deploy.tfe_NewClient := None;
                Deploy.terraform_NewDeployer := None;
                Deploy.git_log_Output := inl "0a1b2c3 Bump e2e image";
                Deploy.Deploy := fun _ _ _ => Some failed |} in
  let options := {| Deploy.TFToken := "token"; Deploy.Workspace := "dev";
                    Deploy.Organization := "xmtp";
                    Deploy.ContainerImage := "xmtp/xmtpd-e2e@sha256:5d3f";
                    Deploy.GitCommit := "0a1b2c3" |} in
  snd (Deploy.main env options) = Deploy.Exits 1
  /\ fatal_lines (fst (Deploy.main env options)) = 1%nat
  /\ exists before : list Deploy.Event,
       fst (Deploy.main env options)
       = before ++ [Deploy.LogFatal "deploying" [zap_Error failed]].
Proof.
  intros failed env options.
  pose proof (main_exit env options) as Hexit.
  destruct (Deploy.main env options) as [events exit] eqn:Hmain.
  vm_compute in Hmain. injection Hmain as <- <-.
  destruct Hexit as (_ & _ & _ & [Hret | [[v Hpanic] | (Hone & Hfatal & _)]] & _);
    [discriminate Hret | discriminate Hpanic |].
  split; [exact Hone|]. split; [exact Hfatal|].
  by eexists [_; _; _; _].
Defined.

(** ** Early failures of [New], and [Close] again *)

Section EarlyFailureFacts.
Import Go.

(** X16.  The two earliest failures of [New].  A configuration that does
    not validate is answered with the validation error as it is, unwrapped,
    and the world is untouched.  When the message service cannot be created,
    [New] returns that error wrapped; by then the gRPC listener is bound and
    stays open, but no serve loop was started on it and nothing was
    registered with the wait group; the janitor, if authentication is
    enabled, is already running; the HTTP gateway was not started. *)
Theorem New_early_failures (env : Env) (config : Config) (w : World) (e : error) :
  (validate env config = Some e ->
   New env config w = (Returned (None, Some e), w))
  /\ (validate env config = None ->
      net_Listen env GRPC = None ->
      messagev1_NewService env = Some e ->
      exists w' : World,
        New env config w
        = (Returned (None, Some (Wrap e "creating message service")), w')
        /\ listeners w' GRPC = Listening
        /\ listeners w' HTTPGateway = listeners w HTTPGateway
        /\ tasks w'
           = tasks w ++ (if Enable (Authn config) then [janitor_task] else [])
        /\ wg w' = wg w
        /\ effects w' = effects w ++ [Bound GRPC]).
Proof.
  split.
  - intros Hvalid. run_server. by rewrite Hvalid.
  - intros Hvalid Hlisten Hsvc. run_server. rewrite Hvalid, Hlisten, Hsvc.
    simpl. repeat (case_match; simpl in *; simplify_eq; simpl in * );
      eexists; (split; [reflexivity|]); simpl; rewrite ?app_nil_r; done.
Qed.

Lemma no_counted_tasks (ts : list Task) (t : Task) :
  length (List.filter counted ts) = 0%nat -> t ∈ ts -> counted t = false.
Proof.
  intros Hlen Ht. apply length_zero_iff_nil in Hlen.
  destruct (counted t) eqn:Hc; [|done].
  assert (Hin : In t (List.filter counted ts)).
  { apply List.filter_In. split; [by apply list_elem_of_In | done]. }
  rewrite Hlen in Hin. destruct Hin.
Qed.

(** X17.  [Close] can be repeated: once a [Close] has returned, every later
    [Close] of the same server returns as well, with the wait group counter
    at zero and no goroutine registered with the wait group running. *)
Theorem Close_twice (env env' : Env) (s : Server) (w w2 : World) :
  wg_counts w ->
  Close env s w = Some w2 ->
  exists w3 : World,
    Close env' s w2 = Some w3
    /\ wg w3 = 0%nat
    /\ forall t : Task, t ∈ tasks w3 -> joined t = true -> taskRunning t = false.
Proof.
  intros Hwg HClose.
  destruct (Close_waits_in env s w) as (v & Hv & Htasks & Hcount & _).
  rewrite Hv in HClose. apply bind_Some in HClose as (v' & HWait & [= <-]).
  assert (Hv' : wg_counts v' /\ wg v' = 0%nat).
  { unfold WaitGroup_Wait in HWait. case_match eqn:Hzero; [|done].
    injection HWait as <-. split.
    - apply run_goroutines_wg_counts. unfold wg_counts in *.
      by rewrite Htasks, Hcount.
    - by apply Nat.eqb_eq in Hzero. }
  destruct Hv' as [Hinv Hzero].
  destruct (Close_waits_in env' s (effect (Logged InfoLevel "closed" None) v'))
    as (u & Hu & Hutasks & Hucount & _).
  simpl in Hutasks, Hucount.
  assert (Hnone : forall t, t ∈ tasks u -> counted t = false).
  { intros t Ht. apply (no_counted_tasks (tasks v')); [|by rewrite <- Hutasks].
    unfold wg_counts in Hinv. by rewrite <- Hinv. }
  rewrite Hu. unfold WaitGroup_Wait, run_goroutines. simpl.
  assert (Hfilter : List.filter (fun t => may_exit u t && joined t) (tasks u) = []).
  { apply length_zero_iff_nil.
    pose proof (counted_exit_task u (tasks u)) as Hsum.
    assert (Hc : length (List.filter counted (tasks u)) = 0%nat).
    { rewrite Hutasks. unfold wg_counts in Hinv. by rewrite <- Hinv. }
    lia. }
  rewrite Hfilter, Hucount, Hzero. simpl. eexists. split; [reflexivity|].
  simpl. split; [done|].
  intros t [t0 [-> Ht0]]%list_elem_of_fmap Hjoin.
  specialize (Hnone t0 Ht0). unfold exit_task in *.
  destruct (may_exit u t0); simpl in *; [done|].
  unfold counted in Hnone. rewrite Hjoin in Hnone.
  by destruct (taskRunning t0).
Qed.
End EarlyFailureFacts.

Lemma New_early_failures_witness :
  let refused := Go.NewError "store is closed" None in
  let env := {| validate := fun _ => None; net_Listen := fun _ => None;
                messagev1_NewService := Some refused;
                messagev3_NewService := None; grpc_DialContext := None;
                RegisterMessageApiHandler := None;
                RegisterMlsApiHandler := None;
                Listener_Close := fun _ => None |} in
  exists w' : World,
    New env (config_with true false) World_empty
    = (Go.Returned (None, Some (Go.Wrap refused "creating message service")), w')
    /\ listeners w' GRPC = Listening
    /\ tasks w' = [janitor_task]
    /\ wg w' = 0%nat.
Proof.
  intros refused env.
  destruct (proj2 (New_early_failures env (config_with true false)
                     World_empty refused) eq_refl eq_refl eq_refl)
    as (w' & HNew & Hlis & _ & Htasks & Hwg & _).
  exists w'. split; [exact HNew|]. split; [exact Hlis|].
  split; [exact Htasks | exact Hwg].
Defined.

Lemma Close_twice_witness :
  let env_closed :=
    {| validate := fun _ => None; net_Listen := fun _ => None;
       messagev1_NewService := None; messagev3_NewService := None;
       grpc_DialContext := None; RegisterMessageApiHandler := None;
       RegisterMlsApiHandler := None;
       Listener_Close := fun _ =>
         Some (Go.NewError "close tcp: use of closed network connection"
                 None) |} in
  exists (s : Server) (w w2 : World),
    New env_ok (config_with true true) World_empty
    = (Go.Returned (Some s, None), w)
    /\ holds s GRPC /\ holds s HTTPGateway
    /\ tasks w = [janitor_task; serve_task GRPC "grpc" true;
                  serve_task HTTPGateway "http" true]
    /\ wg w = 2%nat
    /\ Close env_ok s w = Some w2
    /\ tasks w2 = [janitor_task; serve_task GRPC "grpc" false;
                   serve_task HTTPGateway "http" false]
    /\ listeners w2 GRPC = Closed /\ listeners w2 HTTPGateway = Closed
    /\ exists w3 : World,
         Close env_closed s w2 = Some w3
         /\ wg w3 = 0%nat
         /\ forall t : Task,
              t ∈ tasks w3 -> joined t = true -> taskRunning t = false.
Proof.
  intros env_closed. eexists _, _, _. split; [reflexivity|].
  split; [left; reflexivity|]. split; [right; reflexivity|].
  split; [reflexivity|]. split; [reflexivity|].
  match goal with
  | |- Close _ ?s ?w = Some _ /\ _ =>
      pose proof (fun w2 : World =>
                    Close_twice env_ok env_closed s w w2 (eq_refl : wg_counts w))
        as Hagain
  end.
  split; [reflexivity|]. split; [reflexivity|].
  split; [reflexivity|]. split; [reflexivity|].
  apply (Hagain _ eq_refl).
Defined.

Lemma New_success_state_witness :
  exists (s : Server) (w' : World) (g : GrpcServer),
    New env_ok (config_with true true) World_empty
    = (Go.Returned (Some s, None), w')
    /\ messagev3 s = Some MessageV3
    /\ grpcServer w' = Some g
    /\ Registered g = [MessageV1; MessageV3]
    /\ effects w'
       = [Bound GRPC; ServiceCreated MessageV1; ServiceCreated MessageV3;
          Dialed; Bound HTTPGateway].
Proof.
  eexists _, _.
  destruct (New_success_state env_ok (config_with true true) World_empty
              _ _ eq_refl)
    as ((_ & _ & _ & _ & Hv3 & _) & _ & _ & (g & Hg & Hreg & _) & Heff).
  exists g. split; [reflexivity|]. split; [exact Hv3|].
  split; [exact Hg|]. split; [exact Hreg | exact Heff].
Defined.
